(** * Range filter (trend.py): a shallow embedding and its verified properties

    The program is the Python class [RangeFilter] of [src/trend.py].  Prices
    are numpy [float64] values, modelled by Rocq's primitive binary64 floats
    (same format, same round-to-nearest-even operations, one NaN).  The
    pandas [DataFrame] the object works on is a finite map from column names
    to columns; the result arrays are lists updated by index; Python
    exceptions are the [Raise] results of a small error monad.

    [np.mean] is the only numeric routine whose rounding depends on numpy's
    internal summation order; the development is parametric in it (a
    [Variable] of the section) and instantiated by [mean_seq] for concrete
    runs. *)

From Stdlib Require Import ZArith Floats String.
From stdpp Require Import gmap strings list fin_maps.

Local Open Scope string_scope.
Local Open Scope list_scope.

(** ** Python exceptions and the error monad *)

Inductive exn : Type :=
| ZeroDivisionError
| KeyError (c : string)
| IndexError
| TypeError.

Inductive result (A : Type) : Type :=
| Ok (a : A)
| Raise (e : exn).
Arguments Ok {A} a.
Arguments Raise {A} e.

#[global] Instance result_ret : MRet result := fun A a => Ok a.
#[global] Instance result_bind : MBind result := fun A B f m =>
  match m with
  | Ok a => f a
  | Raise e => Raise e
  end.

Definition is_ok {A} (m : result A) : bool :=
  match m with Ok _ => true | Raise _ => false end.

(** A [for i in ...] loop whose body may raise: the state is threaded through
    the iterations in order and the first exception ends the loop. *)
Fixpoint for_each {S : Type} (body : nat -> S -> result S) (idx : list nat) (s : S)
  : result S :=
  match idx with
  | [] => Ok s
  | i :: rest => s' ← body i s; for_each body rest s'
  end.

(** ** float64 helpers *)

(** [float(z)] for a Python int; exact for |z| < 2^53 (periods and list
    lengths are far below that). *)
Definition Z2F (z : Z) : float :=
  match z with
  | Z0 => 0%float
  | Zpos _ => of_uint63 (Uint63.of_Z z)
  | Zneg p => (- of_uint63 (Uint63.of_Z (Zpos p)))%float
  end.

(** Python's [a / b] on two ints. *)
Definition py_truediv (a b : Z) : result float :=
  if (b =? 0)%Z then Raise ZeroDivisionError else Ok (Z2F a / Z2F b)%float.

(** Python's builtin [max(a, b, c)]: the running maximum is replaced only
    by an item that compares greater. *)
Definition py_max3 (a b c : float) : float :=
  let m := if (a <? b)%float then b else a in
  if (m <? c)%float then c else m.

(** [np.floor] on a float64: the value itself when it is an integer, a zero,
    an infinity or NaN; otherwise the next integer towards minus infinity. *)
Definition np_floor (x : float) : float :=
  match Prim2SF x with
  | S754_finite s m e =>
      if (0 <=? e)%Z then x
      else
        let q := Z.shiftr (Zpos m) (- e) in
        if (Z.shiftl q (- e) =? Zpos m)%Z then x
        else if s then (- Z2F (q + 1))%float else Z2F q
  | _ => x
  end.

(** Truth value of a float used as a condition ([if self.upward[i]:]). *)
Definition truthy (x : float) : bool := negb (x =? 0)%float.

(** Left-to-right mean, the instance of [np.mean] used for concrete runs
    (numpy adds fewer than eight items in this order; the order matters
    only to the last bit of the result). *)
Definition mean_seq (xs : list float) : float :=
  (fold_left PrimFloat.add xs 0 / Z2F (Z.of_nat (length xs)))%float.

(** ** The DataFrame *)

Inductive column : Type :=
| FloatCol (xs : list float)
| ObjCol (xs : list string).

Record DataFrame : Type := {
  df_index : list Z;
  df_columns : gmap string column
}.

(** [len(data)] *)
Definition df_len (df : DataFrame) : nat := length (df_index df).

(** [data.reset_index(drop=True, inplace=True)]: the row labels become
    0 .. n-1; the columns are not touched. *)
Definition reset_index (df : DataFrame) : DataFrame :=
  {| df_index := map Z.of_nat (seq 0 (df_len df)); df_columns := df_columns df |}.

(** [data[c].iloc[i]], read as a float (a cell that holds a string makes
    the arithmetic that follows raise [TypeError]). *)
Definition iloc (df : DataFrame) (c : string) (i : nat) : result float :=
  match df_columns df !! c with
  | None => Raise (KeyError c)
  | Some (ObjCol _) => Raise TypeError
  | Some (FloatCol xs) =>
      match xs !! i with
      | Some v => Ok v
      | None => Raise IndexError
      end
  end.

(** [data[c] = values] *)
Definition setitem (df : DataFrame) (c : string) (col : column) : DataFrame :=
  {| df_index := df_index df; df_columns := <[c := col]> (df_columns df) |}.

(** One price bar, as read back from the frame at a position. *)
Record PriceBar : Type := {
  bar_open : float; bar_high : float; bar_low : float; bar_close : float
}.

Definition float_cell (df : DataFrame) (c : string) (i : nat) : option float :=
  match df_columns df !! c with
  | Some (FloatCol xs) => xs !! i
  | _ => None
  end.

Definition price_bar (df : DataFrame) (i : nat) : option PriceBar :=
  o ← float_cell df "open" i;
  h ← float_cell df "high" i;
  l ← float_cell df "low" i;
  c ← float_cell df "close" i;
  Some {| bar_open := o; bar_high := h; bar_low := l; bar_close := c |}.

(** Reading an element of a result array. *)
Definition getidx {A} (xs : list A) (i : nat) : result A :=
  match xs !! i with
  | Some v => Ok v
  | None => Raise IndexError
  end.

(** ** The RangeFilter object *)

Record RangeFilter : Type := {
  data : DataFrame;
  f_type : string;
  mov_src : string;
  rng_qty : float;
  rng_scale : string;
  rng_per : Z;
  smooth_range : bool;
  smooth_per : Z;
  av_vals : bool;
  av_samples : Z
}.

(** [RangeFilter.__init__]: keeps the caller's frame (no copy) and resets its
    index in place. *)
Definition RangeFilter_init (d : DataFrame) (ft ms : string) (qty : float)
    (scale : string) (per : Z) (smooth : bool) (sper : Z) (av : bool) (avn : Z)
  : RangeFilter :=
  {| data := reset_index d; f_type := ft; mov_src := ms; rng_qty := qty;
     rng_scale := scale; rng_per := per; smooth_range := smooth;
     smooth_per := sper; av_vals := av; av_samples := avn |}.

(** The result arrays held in [self] during and after [run]. *)
Record Arrays : Type := {
  filt : list float;
  h_band : list float;
  l_band : list float;
  fdir : list float;
  upward : list float;
  downward : list float;
  filt_color : list string;
  bar_color : list string;
  external_trend_output : list float
}.

(** The local variables [run] carries from one bar to the next. *)
Record Vars : Type := {
  prev_ac : float;
  prev_atr : float;
  prev_sd : float;
  ac_list : list float;
  sd_list : list float;
  prev_rng_smooth : float;
  rfilt_prev : float;
  filt_change_count : Z;
  filt_change_values : list float
}.

(** [lst.append(x); if len(lst) > n: lst.pop(0)] *)
Definition push_window (n : Z) (lst : list float) (x : float) : list float :=
  let lst := lst ++ [x] in
  if (n <? Z.of_nat (length lst))%Z then tail lst else lst.

(** [Cond_EMA] *)
Definition Cond_EMA (x : float) (cond : bool) (n : Z) (prev_ema : float)
  : result float :=
  k ← py_truediv 2 (n + 1);
  if cond then
    if is_nan prev_ema then Ok x
    else Ok ((x - prev_ema) * k + prev_ema)%float
  else Ok prev_ema.

Section WithMean.

Variable np_mean : list float -> float.

(** [Cond_SMA] *)
Definition Cond_SMA (x_list : list float) : float :=
  if (length x_list =? 0)%nat then nan else np_mean x_list.

(** [Stdev]: [np.sqrt(np.mean((x_list - mean) ** 2))] *)
Definition Stdev (x_list : list float) (mean : float) : float :=
  if (length x_list =? 0)%nat then nan
  else PrimFloat.sqrt (np_mean (map (fun x => ((x - mean) * (x - mean))%float) x_list)).

(** The branch of [rng_size] that selects the range size by scale name
    (the last branch catches every other string).  [prev_atr], [prev_ac] and
    [prev_sd] are floats, never [None], so the [if ... is not None] guards
    always take their first arm. *)
Definition select_rng_size (self : RangeFilter) (i : nat)
    (prev_ac prev_atr prev_sd : float) : result float :=
  let qty := rng_qty self in
  let scale := rng_scale self in
  if (scale =? "Pips")%string then Ok (qty * 0x1.a36e2eb1c432dp-14)%float
  else if (scale =? "Points")%string then Ok (qty * 1)%float
  else if (scale =? "% of Price")%string then
    c ← iloc (data self) "close" i; Ok (c * qty / 100)%float
  else if (scale =? "ATR")%string then Ok (qty * prev_atr)%float
  else if (scale =? "Average Change")%string then Ok (qty * prev_ac)%float
  else if (scale =? "Standard Deviation")%string then Ok (qty * prev_sd)%float
  else if (scale =? "Ticks")%string then Ok (qty * 0x1.47ae147ae147bp-7)%float
  else Ok qty.

(** [rng_size] *)
Definition rng_size (self : RangeFilter) (x : float) (i : nat)
    (prev_ac prev_atr prev_sd : float) (ac_list sd_list : list float)
  : result (float * float * float * float * list float * list float) :=
  let n := rng_per self in
  tr ← (match i with
        | O =>
            hi ← iloc (data self) "high" i;
            lo ← iloc (data self) "low" i;
            Ok (hi - lo)%float
        | S j =>
            hi ← iloc (data self) "high" i;
            lo ← iloc (data self) "low" i;
            cp ← iloc (data self) "close" j;
            Ok (py_max3 (hi - lo) (PrimFloat.abs (hi - cp)) (PrimFloat.abs (lo - cp)))%float
        end);
  prev_atr ← Cond_EMA tr true n prev_atr;
  ac ← (match i with
        | O => Ok 0%float
        | S j =>
            hp ← iloc (data self) "high" j;
            lp ← iloc (data self) "low" j;
            Ok (PrimFloat.abs (x - (hp + lp) / 2))%float
        end);
  prev_ac ← Cond_EMA ac true n prev_ac;
  let sd_list := push_window n sd_list x in
  let mean_sd := Cond_SMA sd_list in
  let prev_sd := Stdev sd_list mean_sd in
  rs ← select_rng_size self i prev_ac prev_atr prev_sd;
  Ok (rs, prev_ac, prev_atr, prev_sd, ac_list, sd_list).

(** The anchor update of [rng_filt] (the block under "Initialize filter
    values"). *)
Definition next_rfilt (f_type : string) (h l r rfilt_prev : float) : float :=
  if is_nan rfilt_prev then ((h + l) / 2)%float
  else if (f_type =? "Type 1")%string then
    if (rfilt_prev <? h - r)%float then (h - r)%float
    else if (l + r <? rfilt_prev)%float then (l + r)%float
    else rfilt_prev
  else if (f_type =? "Type 2")%string then
    if (rfilt_prev + r <=? h)%float then
      (rfilt_prev + np_floor (PrimFloat.abs (h - rfilt_prev) / r) * r)%float
    else if (l <=? rfilt_prev - r)%float then
      (rfilt_prev - np_floor (PrimFloat.abs (l - rfilt_prev) / r) * r)%float
    else rfilt_prev
  else rfilt_prev.

(** [rng_filt] *)
Definition rng_filt (self : RangeFilter) (h l rng_size_value : float) (i : nat)
    (rfilt_prev prev_rng_smooth : float) (filt_change_count : Z)
    (filt_change_values : list float)
  : result (float * float * float * float * float * Z * list float) :=
  let smooth := smooth_range self in
  let sn := smooth_per self in
  let av_rf := av_vals self in
  let av_n := av_samples self in
  prev_rng_smooth ← Cond_EMA rng_size_value true sn prev_rng_smooth;
  let r := if smooth then prev_rng_smooth else rng_size_value in
  let rfilt := next_rfilt (f_type self) h l r rfilt_prev in
  let hi_band := (rfilt + r)%float in
  let lo_band := (rfilt - r)%float in
  if av_rf then
    let filt_changed := negb (rfilt =? rfilt_prev)%float in
    let filt_change_values :=
      if filt_changed then push_window av_n filt_change_values rfilt
      else filt_change_values in
    let filt_change_count :=
      if filt_changed then (filt_change_count + 1)%Z else filt_change_count in
    let rng_filt_value :=
      match filt_change_values with
      | [] => rfilt
      | _ :: _ => np_mean filt_change_values
      end in
    let hi_band := (rng_filt_value + r)%float in
    let lo_band := (rng_filt_value - r)%float in
    Ok (hi_band, lo_band, rng_filt_value, rfilt, prev_rng_smooth,
        filt_change_count, filt_change_values)
  else
    Ok (hi_band, lo_band, rfilt, rfilt, prev_rng_smooth,
        filt_change_count, filt_change_values).

End WithMean.

(** ** The driver: [run] *)

(** [arr[i] = v] on a numpy array. *)
Definition setidx {A} (xs : list A) (i : nat) (v : A) : result (list A) :=
  if (i <? length xs)%nat then Ok (<[i := v]> xs) else Raise IndexError.

(** The arrays allocated at the start of [run]. *)
Definition init_arrays (n : nat) : Arrays :=
  {| filt := replicate n 0%float;
     h_band := replicate n 0%float;
     l_band := replicate n 0%float;
     fdir := replicate n 0%float;
     upward := replicate n 0%float;
     downward := replicate n 0%float;
     filt_color := replicate n "gray";
     bar_color := replicate n "gray";
     external_trend_output := replicate n 0%float |}.

(** The locals initialised before the loop. *)
Definition init_vars : Vars :=
  {| prev_ac := nan; prev_atr := nan; prev_sd := nan;
     ac_list := []; sd_list := [];
     prev_rng_smooth := nan; rfilt_prev := nan;
     filt_change_count := 0; filt_change_values := [] |}.

(** "Determine the movement source": the pair [(h_val, l_val)]. *)
Definition movement (self : RangeFilter) (i : nat) : result (float * float) :=
  if (mov_src self =? "Wicks")%string then
    h ← iloc (data self) "high" i;
    l ← iloc (data self) "low" i;
    Ok (h, l)
  else
    c ← iloc (data self) "close" i;
    Ok (c, c).

(** "Determine the filter direction": the value stored in [fdir[i]]. *)
Definition direction (i : nat) (filt fdir : list float) : result float :=
  match i with
  | O => Ok 0%float
  | S j =>
      fi ← getidx filt i;
      fp ← getidx filt j;
      if (fp <? fi)%float then Ok 1%float
      else if (fi <? fp)%float then Ok (-1)%float
      else getidx fdir j
  end.

(** The colour of a bar that closed beyond the filter: bright when the close
    also moved in the trend's direction, darker otherwise. *)
Definition bar_shade (self : RangeFilter) (i : nat) (up : bool)
    (bright dark : string) : result string :=
  c ← iloc (data self) "close" i;
  match i with
  | O => Ok dark
  | S j =>
      cp ← iloc (data self) "close" j;
      if (if up then cp <? c else c <? cp)%float then Ok bright else Ok dark
  end.

(** "Assign colors based on trend direction": the pair
    [(filt_color[i], bar_color[i])]. *)
Definition trend_colors (self : RangeFilter) (i : nat)
    (filt upward downward : list float) : result (string * string) :=
  up ← getidx upward i;
  if truthy up then
    c ← iloc (data self) "close" i;
    f ← getidx filt i;
    bc ← (if (f <? c)%float then bar_shade self i true "#05ff9b" "#00b36b"
          else Ok "gray");
    Ok ("#05ff9b", bc)
  else
    dn ← getidx downward i;
    if truthy dn then
      c ← iloc (data self) "close" i;
      f ← getidx filt i;
      bc ← (if (c <? f)%float then bar_shade self i false "#ff0583" "#b8005d"
            else Ok "gray");
      Ok ("#ff0583", bc)
    else Ok ("gray", "gray").

Section Driver.

Variable np_mean : list float -> float.

(** One iteration of the [for i in range(n)] loop of [run]. *)
Definition loop_body (self : RangeFilter) (i : nat) (st : Vars * Arrays)
  : result (Vars * Arrays) :=
  let '(v, a) := st in
  '(h_val, l_val) ← movement self i;
  let x := ((h_val + l_val) / 2)%float in
  '(rng_size_value, prev_ac', prev_atr', prev_sd', ac_list', sd_list') ←
    rng_size np_mean self x i (prev_ac v) (prev_atr v) (prev_sd v)
      (ac_list v) (sd_list v);
  '(h_band_i, l_band_i, filt_i, rfilt_prev', prev_rng_smooth',
    filt_change_count', filt_change_values') ←
    rng_filt np_mean self h_val l_val rng_size_value i (rfilt_prev v)
      (prev_rng_smooth v) (filt_change_count v) (filt_change_values v);
  h_band' ← setidx (h_band a) i h_band_i;
  l_band' ← setidx (l_band a) i l_band_i;
  filt' ← setidx (filt a) i filt_i;
  d ← direction i filt' (fdir a);
  fdir' ← setidx (fdir a) i d;
  d1 ← getidx fdir' i;
  upward' ← setidx (upward a) i (if (d1 =? 1)%float then 1 else 0)%float;
  d2 ← getidx fdir' i;
  downward' ← setidx (downward a) i (if (d2 =? -1)%float then 1 else 0)%float;
  '(fc, bc) ← trend_colors self i filt' upward' downward';
  filt_color' ← setidx (filt_color a) i fc;
  bar_color' ← setidx (bar_color a) i bc;
  d3 ← getidx fdir' i;
  external_trend_output' ← setidx (external_trend_output a) i d3;
  Ok ({| prev_ac := prev_ac'; prev_atr := prev_atr'; prev_sd := prev_sd';
         ac_list := ac_list'; sd_list := sd_list';
         prev_rng_smooth := prev_rng_smooth'; rfilt_prev := rfilt_prev';
         filt_change_count := filt_change_count';
         filt_change_values := filt_change_values' |},
      {| filt := filt'; h_band := h_band'; l_band := l_band';
         fdir := fdir'; upward := upward'; downward := downward';
         filt_color := filt_color'; bar_color := bar_color';
         external_trend_output := external_trend_output' |}).

(** The state of [run] after its first [k] iterations. *)
Definition state_after (self : RangeFilter) (k : nat) : result (Vars * Arrays) :=
  for_each (loop_body self) (seq 0 k)
    (init_vars, init_arrays (df_len (data self))).

(** "Append the results to the original data DataFrame". *)
Definition append_results (df : DataFrame) (a : Arrays) : DataFrame :=
  let df := setitem df "filt" (FloatCol (filt a)) in
  let df := setitem df "h_band" (FloatCol (h_band a)) in
  let df := setitem df "l_band" (FloatCol (l_band a)) in
  let df := setitem df "fdir" (FloatCol (fdir a)) in
  let df := setitem df "upward" (FloatCol (upward a)) in
  let df := setitem df "downward" (FloatCol (downward a)) in
  let df := setitem df "filt_color" (ObjCol (filt_color a)) in
  let df := setitem df "bar_color" (ObjCol (bar_color a)) in
  setitem df "external_trend_output" (FloatCol (external_trend_output a)).

(** [run]: the arrays left in [self] and the frame after the call.  When the
    loop raises, nothing has been assigned to the frame yet. *)
Definition run (self : RangeFilter) : result (Arrays * DataFrame) :=
  '(_, a) ← state_after self (df_len (data self));
  Ok (a, append_results (data self) a).

(** The caller's frame once [run] has returned or raised. *)
Definition data_after (self : RangeFilter) : DataFrame :=
  match run self with
  | Ok (_, df) => df
  | Raise _ => data self
  end.

(** The effective range [r] that [rng_filt] uses on bar [i] of the run. *)
Definition effective_range (self : RangeFilter) (i : nat) : result float :=
  '(v, _) ← state_after self i;
  '(h_val, l_val) ← movement self i;
  let x := ((h_val + l_val) / 2)%float in
  '(rng_size_value, _, _, _, _, _) ←
    rng_size np_mean self x i (prev_ac v) (prev_atr v) (prev_sd v)
      (ac_list v) (sd_list v);
  s ← Cond_EMA rng_size_value true (smooth_per self) (prev_rng_smooth v);
  Ok (if smooth_range self then s else rng_size_value).

End Driver.

(** ** Concrete frames used in the examples *)

Definition frame_of (o h l c : list float) : DataFrame :=
  {| df_index := map Z.of_nat (seq 0 (length c));
     df_columns :=
       <["open" := FloatCol o]> (<["high" := FloatCol h]>
         (<["low" := FloatCol l]> (<["close" := FloatCol c]> ∅))) |}.

Definition flat5 : DataFrame :=
  frame_of (replicate 5 100%float) (replicate 5 101%float)
           (replicate 5 99%float) (replicate 5 100%float).
Definition gap_frame : DataFrame :=
  frame_of [100; 109]%float [101; 110]%float [99; 108]%float [100; 109]%float.

Definition step_frame : DataFrame :=
  frame_of [100; 104.5]%float [101; 105.5]%float [99; 104]%float
           [100; 105]%float.

Definition rising_frame : DataFrame :=
  frame_of [100; 102; 104; 106]%float [101; 103; 105; 107]%float
           [99; 101; 103; 105]%float [100; 102; 104; 106]%float.

(** One bar at price 1. *)
Definition unit_frame : DataFrame :=
  frame_of [1%float] [1%float] [1%float] [1%float].

(** A second bar whose fields are NaN and infinite. *)
Definition nan_frame : DataFrame :=
  frame_of [100; nan]%float [101; nan]%float [99; 100]%float
           [100; infinity]%float.

Definition empty_frame : DataFrame := frame_of [] [] [] [].

(** The spec's first scenario: five equal bars, absolute range 1. *)
Definition rf_flat : RangeFilter :=
  RangeFilter_init flat5 "Type 1" "Wicks" 1 "Absolute" 14 false 27 false 2.

(** The spec's second scenario: a gap up after a stable anchor. *)
Definition rf_gap : RangeFilter :=
  RangeFilter_init gap_frame "Type 1" "Wicks" 1 "Absolute" 14 false 27 false 2.

Definition rf_step : RangeFilter :=
  RangeFilter_init step_frame "Type 2" "Wicks" 1 "Absolute" 14 false 27 false 2.

(** Averaging over the last two filter changes, window period 2. *)
Definition rf_avg : RangeFilter :=
  RangeFilter_init rising_frame "Type 1" "Wicks" 1 "Absolute" 2 false 27 true 2.

(** A scale name that is none of the eight. *)
Definition rf_percent : RangeFilter :=
  RangeFilter_init gap_frame "Type 1" "Wicks" 1 "Percent" 14 false 27 false 2.

(** Range 0.1 around price 1 (0x1.999999999999ap-4 is the float64 0.1). *)
Definition rf_unit : RangeFilter :=
  RangeFilter_init unit_frame "Type 1" "Close" 0x1.999999999999ap-4
    "Absolute" 14 false 27 false 2.

Definition rf_nan : RangeFilter :=
  RangeFilter_init nan_frame "Type 1" "Wicks" 1 "Absolute" 14 false 27 false 2.

Definition rf_empty : RangeFilter :=
  RangeFilter_init empty_frame "Type 1" "Wicks" 1 "Absolute" 14 false 27 false 2.

(** The arrays of a run that returned. *)
Definition result_arrays (m : result (Arrays * DataFrame)) : option Arrays :=
  match m with
  | Ok (a, _) => Some a
  | Raise _ => None
  end.

(** The two half-widths of the band on bar [i]:
    [(highBand - filterValue, filterValue - lowBand)]. *)
Definition band_widths (a : Arrays) (i : nat) : option (float * float) :=
  f ← filt a !! i;
  hb ← h_band a !! i;
  lb ← l_band a !! i;
  Some ((hb - f)%float, (f - lb)%float).

(** Six bars that rise, stall and fall: every colour occurs. *)
Definition trend_frame : DataFrame :=
  frame_of [100; 102; 103; 104.5; 104.25; 100]%float
           [101; 104; 105; 105; 105; 101]%float
           [99; 102; 103; 104; 104; 99]%float
           [100; 103.5; 103.25; 104.5; 104.25; 99.5]%float.

Definition rf_trend : RangeFilter :=
  RangeFilter_init trend_frame "Type 1" "Wicks" 1 "Absolute" 14 false 27 false 2.

(** The arrays [run] returns on [rf_trend]. *)
Definition trend_arrays : Arrays :=
  {| filt := [100; 103; 104; 104; 104; 100]%float;
     h_band := [101; 104; 105; 105; 105; 101]%float;
     l_band := [99; 102; 103; 103; 103; 99]%float;
     fdir := [0; 1; 1; 1; 1; -1]%float;
     upward := [0; 1; 1; 1; 1; 0]%float;
     downward := [0; 0; 0; 0; 0; 1]%float;
     filt_color := ["gray"; "#05ff9b"; "#05ff9b"; "#05ff9b"; "#05ff9b"; "#ff0583"];
     bar_color := ["gray"; "#05ff9b"; "gray"; "#05ff9b"; "#00b36b"; "#ff0583"];
     external_trend_output := [0; 1; 1; 1; 1; -1]%float |}.

(** A frame of two rows without a [high] column. *)
Definition no_high_frame : DataFrame :=
  {| df_index := [0; 1]%Z;
     df_columns :=
       <["low" := FloatCol [99; 108]%float]>
         (<["close" := FloatCol [100; 109]%float]> ∅) |}.

Definition rf_no_high : RangeFilter :=
  RangeFilter_init no_high_frame "Type 1" "Wicks" 1 "Absolute" 14 false 27 false 2.

(** An [f_type] and a [mov_src] that are none of the documented names. *)
Definition rf_type3 : RangeFilter :=
  RangeFilter_init gap_frame "Type 3" "Wicks" 1 "Absolute" 14 false 27 false 2.

Definition rf_open : RangeFilter :=
  RangeFilter_init gap_frame "Type 1" "Open" 1 "Absolute" 14 false 27 false 2.

(** Periods and sample counts of zero. *)
Definition rf_period0 : RangeFilter :=
  RangeFilter_init gap_frame "Type 1" "Wicks" 1 "Standard Deviation" 0 false 27
    false 2.

Definition rf_samples0 : RangeFilter :=
  RangeFilter_init rising_frame "Type 1" "Wicks" 1 "Absolute" 2 false 27 true 0.


(** ** Vocabulary of the statements *)

(** The three values a direction can take. *)
Definition trit (d : float) : Prop := d = 0%float \/ d = 1%float \/ d = (-1)%float.

(** The eight scale names [rng_size] tests for or documents. *)
Definition known_scale (s : string) : bool :=
  (s =? "Points")%string || (s =? "Pips")%string || (s =? "Ticks")%string ||
  (s =? "% of Price")%string || (s =? "ATR")%string ||
  (s =? "Average Change")%string || (s =? "Standard Deviation")%string ||
  (s =? "Absolute")%string.

(** The same object with another [rng_scale]. *)
Definition with_scale (self : RangeFilter) (s : string) : RangeFilter :=
  {| data := data self; f_type := f_type self; mov_src := mov_src self;
     rng_qty := rng_qty self; rng_scale := s; rng_per := rng_per self;
     smooth_range := smooth_range self; smooth_per := smooth_per self;
     av_vals := av_vals self; av_samples := av_samples self |}.

(** ** Well-formed inputs and the specification of one iteration *)

(** A column [run] can read: floats, one per row of the frame. *)
Definition float_column (df : DataFrame) (c : string) : bool :=
  match df_columns df !! c with
  | Some (FloatCol xs) => (length xs =? df_len df)%nat
  | _ => false
  end.

(** The frame has the three columns [run] reads ([open] is never read). *)
Definition price_frame (df : DataFrame) : bool :=
  float_column df "high" && float_column df "low" && float_column df "close".

(** The EMA weight [k = 2 / (n + 1)] of [Cond_EMA]. *)
Definition ema_weight (n : Z) : float := (Z2F 2 / Z2F (n + 1))%float.

Definition arrays_len (n : nat) (a : Arrays) : Prop :=
  length (filt a) = n /\ length (h_band a) = n /\ length (l_band a) = n /\
  length (fdir a) = n /\ length (upward a) = n /\ length (downward a) = n /\
  length (filt_color a) = n /\ length (bar_color a) = n /\
  length (external_trend_output a) = n.

Definition arrays_bound (i : nat) (a : Arrays) : Prop :=
  (i < length (filt a) /\ i < length (h_band a) /\ i < length (l_band a) /\
   i < length (fdir a) /\ i < length (upward a) /\ i < length (downward a) /\
   i < length (filt_color a) /\ i < length (bar_color a) /\
   i < length (external_trend_output a))%nat.

(** Row [j] of the result arrays. *)
Definition arrays_at (j : nat) (a : Arrays) :=
  (filt a !! j, h_band a !! j, l_band a !! j, fdir a !! j, upward a !! j,
   downward a !! j, filt_color a !! j, bar_color a !! j,
   external_trend_output a !! j).

Section BodySpec.

Variable np_mean : list float -> float.

(** What a successful iteration [i] did, call by call: the three calls it
    made and the one element of each array it assigned. *)
Inductive body_spec (self : RangeFilter) (i : nat) (v : Vars) (a : Arrays)
    (v' : Vars) (a' : Arrays) : Prop :=
| BodySpec (h l rs hb lb f d : float) (fc bc : string) :
    movement self i = Ok (h, l) ->
    rng_size np_mean self ((h + l) / 2)%float i (prev_ac v) (prev_atr v)
      (prev_sd v) (ac_list v) (sd_list v)
    = Ok (rs, prev_ac v', prev_atr v', prev_sd v', ac_list v', sd_list v') ->
    rng_filt np_mean self h l rs i (rfilt_prev v) (prev_rng_smooth v)
      (filt_change_count v) (filt_change_values v)
    = Ok (hb, lb, f, rfilt_prev v', prev_rng_smooth v', filt_change_count v',
          filt_change_values v') ->
    arrays_bound i a ->
    filt a' = <[i := f]> (filt a) ->
    h_band a' = <[i := hb]> (h_band a) ->
    l_band a' = <[i := lb]> (l_band a) ->
    direction i (filt a') (fdir a) = Ok d ->
    fdir a' = <[i := d]> (fdir a) ->
    upward a' = <[i := (if (d =? 1)%float then 1 else 0)%float]> (upward a) ->
    downward a' = <[i := (if (d =? -1)%float then 1 else 0)%float]> (downward a) ->
    trend_colors self i (filt a') (upward a') (downward a') = Ok (fc, bc) ->
    filt_color a' = <[i := fc]> (filt_color a) ->
    bar_color a' = <[i := bc]> (bar_color a) ->
    external_trend_output a' = <[i := d]> (external_trend_output a) ->
    body_spec self i v a v' a'.

End BodySpec.
(** ** The object after a run, and other configurations *)

(** The same object holding another frame. *)
Definition with_data (self : RangeFilter) (d : DataFrame) : RangeFilter :=
  {| data := d; f_type := f_type self; mov_src := mov_src self;
     rng_qty := rng_qty self; rng_scale := rng_scale self;
     rng_per := rng_per self; smooth_range := smooth_range self;
     smooth_per := smooth_per self; av_vals := av_vals self;
     av_samples := av_samples self |}.

(** The same object with another [mov_src]. *)
Definition with_mov_src (self : RangeFilter) (s : string) : RangeFilter :=
  {| data := data self; f_type := f_type self; mov_src := s;
     rng_qty := rng_qty self; rng_scale := rng_scale self;
     rng_per := rng_per self; smooth_range := smooth_range self;
     smooth_per := smooth_per self; av_vals := av_vals self;
     av_samples := av_samples self |}.

(** [get_data] *)
Definition get_data (self : RangeFilter) : DataFrame := data self.

(** The names of the columns [run] assigns. *)
Definition result_columns : list string :=
  ["filt"; "h_band"; "l_band"; "fdir"; "upward"; "downward"; "filt_color";
   "bar_color"; "external_trend_output"].

(** The movement midpoint [x] of bar [i]. *)
Definition midpoint (self : RangeFilter) (i : nat) : result float :=
  '(h, l) ← movement self i; Ok ((h + l) / 2)%float.

(** The first [k] rows of a frame. *)
Definition head_column (k : nat) (col : column) : column :=
  match col with
  | FloatCol xs => FloatCol (take k xs)
  | ObjCol xs => ObjCol (take k xs)
  end.

Definition df_head (k : nat) (df : DataFrame) : DataFrame :=
  {| df_index := take k (df_index df);
     df_columns := head_column k <$> df_columns df |}.

(** The first [k] entries of every result array. *)
Definition take_arrays (k : nat) (a : Arrays) : Arrays :=
  {| filt := take k (filt a);
     h_band := take k (h_band a);
     l_band := take k (l_band a);
     fdir := take k (fdir a);
     upward := take k (upward a);
     downward := take k (downward a);
     filt_color := take k (filt_color a);
     bar_color := take k (bar_color a);
     external_trend_output := take k (external_trend_output a) |}.


(** * Properties *)

(** ** Comparisons of float64 values *)

Module FloatOrder.

Lemma SFcompare_antisym x y :
  SFcompare y x = option_map CompOpp (SFcompare x y).
Proof.
  destruct x as [sx|sx| |sx mx ex], y as [sy|sy| |sy my ey]; simpl;
    try reflexivity; try (destruct sx; reflexivity);
    try (destruct sy; reflexivity); try (destruct sx, sy; reflexivity).
  destruct sx, sy; simpl; try reflexivity.
  - rewrite (Z.compare_antisym ey ex).
    destruct (ey ?= ex)%Z; simpl; try reflexivity.
    rewrite CompOpp_involutive.
    f_equal. rewrite (Pos.compare_cont_antisym my mx Eq). reflexivity.
  - rewrite (Z.compare_antisym ey ex).
    destruct (ey ?= ex)%Z; simpl; try reflexivity.
    f_equal. rewrite (Pos.compare_cont_antisym mx my Eq). reflexivity.
Qed.

Lemma SFcompare_refl x : x <> S754_nan -> SFcompare x x = Some Eq.
Proof.
  destruct x as [s|s| |s m e]; simpl; intros H; try congruence.
  - destruct s; reflexivity.
  - rewrite Z.compare_refl.
    assert (Pos.compare_cont Eq m m = Eq) as -> by apply Pos.compare_cont_refl.
    destruct s; reflexivity.
Qed.

Lemma SFcompare_nan_r x : SFcompare x S754_nan = None.
Proof. destruct x; reflexivity. Qed.

(** [a > b] is false whenever [a <= b] holds. *)
Lemma leb_not_gt (a b : float) : (a <=? b)%float = true -> (b <? a)%float = false.
Proof.
  rewrite FloatAxioms.leb_spec, FloatAxioms.ltb_spec. unfold SFleb, SFltb.
  rewrite (SFcompare_antisym (Prim2SF a) (Prim2SF b)).
  destruct (SFcompare (Prim2SF a) (Prim2SF b)) as [[]|]; simpl; congruence.
Qed.

Lemma ltb_asym (a b : float) : (a <? b)%float = true -> (b <? a)%float = false.
Proof.
  rewrite !FloatAxioms.ltb_spec. unfold SFltb.
  rewrite (SFcompare_antisym (Prim2SF a) (Prim2SF b)).
  destruct (SFcompare (Prim2SF a) (Prim2SF b)) as [[]|]; simpl; congruence.
Qed.

(** Equal floats are ordered neither way. *)
Lemma eqb_not_lt (a b : float) :
  (a =? b)%float = true -> (a <? b)%float = false /\ (b <? a)%float = false.
Proof.
  rewrite FloatAxioms.eqb_spec, !FloatAxioms.ltb_spec. unfold SFeqb, SFltb.
  rewrite (SFcompare_antisym (Prim2SF a) (Prim2SF b)).
  destruct (SFcompare (Prim2SF a) (Prim2SF b)) as [[]|]; simpl;
    (congruence || (split; congruence)).
Qed.

(** A float that compares with anything is not NaN. *)
Lemma leb_not_nan_r (a b : float) : (a <=? b)%float = true -> is_nan b = false.
Proof.
  unfold is_nan. rewrite FloatAxioms.leb_spec, FloatAxioms.eqb_spec. unfold SFleb, SFeqb.
  intros H.
  destruct (Prim2SF b) eqn:Eb;
    try (rewrite SFcompare_refl by discriminate; reflexivity).
  rewrite SFcompare_nan_r in H. discriminate.
Qed.

Lemma is_nan_neqb (a b : float) : is_nan b = true -> (a =? b)%float = false.
Proof.
  unfold is_nan. rewrite !FloatAxioms.eqb_spec. unfold SFeqb.
  destruct (Prim2SF b) eqn:Eb;
    try (rewrite SFcompare_refl by discriminate; discriminate).
  intros _. destruct (Prim2SF a); reflexivity.
Qed.

End FloatOrder.

(** ** The error monad *)

Lemma bind_Ok {A B} (m : result A) (f : A -> result B) (b : B) :
  m ≫= f = Ok b -> exists a, m = Ok a /\ f a = Ok b.
Proof. destruct m as [a|e]; [eauto | discriminate]. Qed.

Lemma bind_Ok_l {A B} (a : A) (f : A -> result B) : Ok a ≫= f = f a.
Proof. reflexivity. Qed.

(** Splits a hypothesis [H : m ≫= f = Ok b]: [E] says what [m] returned, and
    [H] goes on with the rest of the computation. *)
Ltac ok_inv H E :=
  let a := fresh "r" in
  apply bind_Ok in H; destruct H as (a & E & H).

Lemma for_each_app {S} (body : nat -> S -> result S) (l1 l2 : list nat) (s : S) :
  for_each body (l1 ++ l2) s = for_each body l1 s ≫= for_each body l2.
Proof.
  revert s. induction l1 as [|i l1 IH]; intros s; simpl; [reflexivity|].
  destruct (body i s) as [s'|e]; simpl; [apply IH | reflexivity].
Qed.

Lemma getidx_Ok {A} (xs : list A) i v : getidx xs i = Ok v <-> xs !! i = Some v.
Proof. unfold getidx. destruct (xs !! i); split; congruence. Qed.

Lemma setidx_Ok {A} (xs ys : list A) i v :
  setidx xs i v = Ok ys <-> (i < length xs)%nat /\ ys = <[i := v]> xs.
Proof.
  unfold setidx. destruct (Nat.ltb_spec i (length xs)); split.
  - intros [= <-]. auto.
  - intros [_ ->]. reflexivity.
  - discriminate.
  - intros [? _]. lia.
Qed.

Lemma setidx_lt {A} (xs : list A) i v :
  (i < length xs)%nat -> setidx xs i v = Ok (<[i := v]> xs).
Proof. intros H. apply setidx_Ok. auto. Qed.

(** ** The calls of one iteration succeed on a well-formed frame *)

Lemma iloc_total df c i :
  float_column df c = true -> (i < df_len df)%nat -> exists v, iloc df c i = Ok v.
Proof.
  unfold float_column, iloc. intros Hc Hi.
  destruct (df_columns df !! c) as [[xs|xs]|]; try discriminate.
  apply Nat.eqb_eq in Hc.
  destruct (lookup_lt_is_Some_2 xs i) as [v Hv]; [lia|].
  rewrite Hv. eauto.
Qed.

Lemma Cond_EMA_Ok x c n p :
  n <> (-1)%Z ->
  Cond_EMA x c n p =
    Ok (if c then if is_nan p then x else ((x - p) * ema_weight n + p)%float else p).
Proof.
  intros Hn. unfold Cond_EMA, py_truediv.
  destruct (Z.eqb_spec (n + 1) 0) as [E|E]; [lia|].
  simpl. destruct c; [destruct (is_nan p)|]; reflexivity.
Qed.

Lemma Cond_EMA_inv x c n p r :
  Cond_EMA x c n p = Ok r ->
  n <> (-1)%Z /\
  r = (if c then if is_nan p then x else ((x - p) * ema_weight n + p)%float else p).
Proof.
  unfold Cond_EMA, py_truediv.
  destruct (Z.eqb_spec (n + 1) 0) as [E|E]; [discriminate|].
  cbn. intros H. split; [lia|].
  destruct c; [destruct (is_nan p)|]; congruence.
Qed.

Section Steps.

Variable np_mean : list float -> float.

Lemma select_rng_size_total self i a b c :
  price_frame (data self) = true -> (i < df_len (data self))%nat ->
  exists r, select_rng_size self i a b c = Ok r.
Proof.
  intros Hf Hi. unfold select_rng_size.
  repeat (match goal with |- context [if ?b then _ else _] => destruct b end; eauto).
  unfold price_frame in Hf. apply andb_prop in Hf as [_ Hc].
  destruct (iloc_total _ _ _ Hc Hi) as [v ->]. simpl. eauto.
Qed.

Lemma movement_total self i :
  price_frame (data self) = true -> (i < df_len (data self))%nat ->
  exists h l, movement self i = Ok (h, l).
Proof.
  intros Hf Hi. unfold movement.
  unfold price_frame in Hf. apply andb_prop in Hf as [Hf Hc]. apply andb_prop in Hf as [Hh Hl].
  destruct (iloc_total _ _ _ Hh Hi) as [h ->].
  destruct (iloc_total _ _ _ Hl Hi) as [l ->].
  destruct (iloc_total _ _ _ Hc Hi) as [c ->].
  destruct (_ =? _)%string; simpl; eauto.
Qed.

Lemma rng_size_total self x i pac patr psd acl sdl :
  price_frame (data self) = true -> (i < df_len (data self))%nat ->
  rng_per self <> (-1)%Z ->
  exists r, rng_size np_mean self x i pac patr psd acl sdl = Ok r.
Proof.
  intros Hf Hi Hn. unfold rng_size.
  pose proof Hf as Hf'.
  unfold price_frame in Hf'. apply andb_prop in Hf' as [Hf' Hc]. apply andb_prop in Hf' as [Hh Hl].
  destruct (iloc_total _ _ _ Hh Hi) as [h Eh].
  destruct (iloc_total _ _ _ Hl Hi) as [l El].
  destruct i as [|j].
  - rewrite Eh, El. simpl. rewrite !Cond_EMA_Ok by assumption. simpl.
    match goal with |- context [select_rng_size ?s ?i ?a ?b ?c] =>
      destruct (select_rng_size_total s i a b c Hf Hi) as [r ->] end.
    cbn. eauto.
  - rewrite Eh, El.
    destruct (iloc_total _ "close" j Hc) as [cp ->]; [lia|].
    destruct (iloc_total _ "high" j Hh) as [hp ->]; [lia|].
    destruct (iloc_total _ "low" j Hl) as [lp ->]; [lia|].
    simpl. rewrite !Cond_EMA_Ok by assumption. simpl.
    match goal with |- context [select_rng_size ?s ?i ?a ?b ?c] =>
      destruct (select_rng_size_total s i a b c Hf Hi) as [r ->] end.
    cbn. eauto.
Qed.

Lemma rng_filt_total self h l rs i rp ps cnt vals :
  smooth_per self <> (-1)%Z ->
  exists r, rng_filt np_mean self h l rs i rp ps cnt vals = Ok r.
Proof.
  intros Hn. unfold rng_filt. rewrite Cond_EMA_Ok by assumption. simpl.
  destruct (av_vals self); eauto.
Qed.


Lemma getidx_total {A} (xs : list A) i :
  (i < length xs)%nat -> exists v, getidx xs i = Ok v.
Proof.
  intros Hi. unfold getidx.
  destruct (lookup_lt_is_Some_2 xs i Hi) as [v ->]. eauto.
Qed.

Lemma direction_total i (fl fd : list float) :
  (i < length fl)%nat -> (i < length fd)%nat -> exists d, direction i fl fd = Ok d.
Proof.
  intros H1 H2. destruct i as [|j]; simpl; [eauto|].
  destruct (getidx_total fl (S j) H1) as [fi ->].
  destruct (getidx_total fl j) as [fp ->]; [lia|].
  destruct (getidx_total fd j) as [dp Hd]; [lia|].
  cbn. destruct (fp <? fi)%float; [eauto|].
  destruct (fi <? fp)%float; eauto.
Qed.

Lemma bar_shade_total self i up s1 s2 :
  price_frame (data self) = true -> (i < df_len (data self))%nat ->
  exists c, bar_shade self i up s1 s2 = Ok c.
Proof.
  intros Hf Hi. unfold bar_shade, price_frame in *.
  apply andb_prop in Hf as [_ Hc].
  destruct (iloc_total _ _ _ Hc Hi) as [c ->]. cbn.
  destruct i as [|j]; [eauto|].
  destruct (iloc_total _ "close" j Hc) as [cp ->]; [lia|]. cbn.
  destruct (if up then _ else _); eauto.
Qed.

Lemma trend_colors_total self i (fl up dn : list float) :
  price_frame (data self) = true -> (i < df_len (data self))%nat ->
  (i < length fl)%nat -> (i < length up)%nat -> (i < length dn)%nat ->
  exists p, trend_colors self i fl up dn = Ok p.
Proof.
  intros Hf Hi H1 H2 H3. unfold trend_colors.
  destruct (getidx_total up i H2) as [u ->].
  destruct (getidx_total dn i H3) as [d ->].
  destruct (getidx_total fl i H1) as [f ->].
  pose proof Hf as Hf'. unfold price_frame in Hf'.
  apply andb_prop in Hf' as [_ Hc].
  destruct (iloc_total _ _ _ Hc Hi) as [c ->]. cbn.
  destruct (bar_shade_total self i true "#05ff9b" "#00b36b" Hf Hi) as [b1 ->].
  destruct (bar_shade_total self i false "#ff0583" "#b8005d" Hf Hi) as [b2 ->].
  destruct (truthy u); cbn.
  - destruct (f <? c)%float; cbn; eauto.
  - destruct (truthy d); cbn; [|eauto].
    destruct (c <? f)%float; cbn; eauto.
Qed.

Lemma loop_body_total self i v a :
  price_frame (data self) = true ->
  rng_per self <> (-1)%Z -> smooth_per self <> (-1)%Z ->
  (i < df_len (data self))%nat -> arrays_len (df_len (data self)) a ->
  exists v' a', loop_body np_mean self i (v, a) = Ok (v', a').
Proof.
  intros Hf Hn Hs Hi (L1 & L2 & L3 & L4 & L5 & L6 & L7 & L8 & L9).
  unfold loop_body.
  destruct (movement_total self i Hf Hi) as (h & l & ->). cbn.
  match goal with |- context [rng_size ?m ?s ?x ?i ?a ?b ?c ?d ?e] =>
    destruct (rng_size_total s x i a b c d e Hf Hi Hn)
      as [[[[[[rs pac] patr] psd] acl] sdl] ->] end. cbn.
  match goal with |- context [rng_filt ?m ?s ?h ?l ?x ?i ?a ?b ?c ?d] =>
    destruct (rng_filt_total s h l x i a b c d Hs)
      as [[[[[[[hb lb] f] rp] ps] cnt] vals] ->] end. cbn.
  rewrite !setidx_lt by lia. cbn.
  match goal with |- context [direction ?i ?fl ?fd] =>
    destruct (direction_total i fl fd) as [d ->] end;
    [rewrite length_insert; lia | lia |]. cbn.
  rewrite !setidx_lt by lia. cbn.
  unfold getidx. rewrite !list_lookup_insert_eq by lia. cbn.
  rewrite !setidx_lt by lia. cbn.
  match goal with |- context [trend_colors ?s ?i ?fl ?up ?dn] =>
    destruct (trend_colors_total s i fl up dn Hf Hi) as [[fc bc] ->] end;
    try (rewrite length_insert; lia). cbn.
  rewrite !setidx_lt by lia. cbn. eauto.
Qed.

(** ** What one iteration does *)

Lemma getidx_insert {A} (xs : list A) i v w :
  (i < length xs)%nat -> getidx (<[i := v]> xs) i = Ok w -> w = v.
Proof.
  intros Hi H. apply getidx_Ok in H.
  rewrite list_lookup_insert_eq in H by assumption. congruence.
Qed.

Lemma loop_body_inv self i v a v' a' :
  loop_body np_mean self i (v, a) = Ok (v', a') -> body_spec np_mean self i v a v' a'.
Proof.
  unfold loop_body. intros H.
  ok_inv H Hmov. destruct r as [h l].
  ok_inv H Hsize. destruct r as [[[[[rs pac] patr] psd] acl] sdl].
  ok_inv H Hfilt. destruct r as [[[[[[hb lb] f] rp] ps] cnt] vals].
  ok_inv H E. apply setidx_Ok in E as [L1 ->].
  ok_inv H E. apply setidx_Ok in E as [L2 ->].
  ok_inv H E. apply setidx_Ok in E as [L3 ->].
  ok_inv H Hdir. rename r into d.
  ok_inv H E. apply setidx_Ok in E as [L4 ->].
  ok_inv H E. apply getidx_insert in E as ->; [|assumption].
  ok_inv H E. apply setidx_Ok in E as [L5 ->].
  ok_inv H E. apply getidx_insert in E as ->; [|assumption].
  ok_inv H E. apply setidx_Ok in E as [L6 ->].
  ok_inv H Hcol. destruct r as [fc bc].
  ok_inv H E. apply setidx_Ok in E as [L7 ->].
  ok_inv H E. apply setidx_Ok in E as [L8 ->].
  ok_inv H E. apply getidx_insert in E as ->; [|assumption].
  ok_inv H E. apply setidx_Ok in E as [L9 ->].
  injection H as <- <-.
  econstructor; simpl; try reflexivity; try eassumption.
  repeat split; assumption.
Qed.

End Steps.

(** ** The loop of [run] *)

Section Run.

Variable np_mean : list float -> float.

Lemma state_after_S self k :
  state_after np_mean self (S k)
  = state_after np_mean self k ≫= loop_body np_mean self k.
Proof.
  unfold state_after. rewrite seq_S, for_each_app. simpl.
  destruct (for_each _ _ _) as [s|e]; [|reflexivity].
  cbn. destruct (loop_body np_mean self k s); reflexivity.
Qed.

Lemma init_arrays_len n : arrays_len n (init_arrays n).
Proof. unfold arrays_len, init_arrays; simpl. rewrite !length_replicate. tauto. Qed.

Lemma body_spec_len self i v a v' a' n :
  body_spec np_mean self i v a v' a' -> arrays_len n a -> arrays_len n a'.
Proof.
  intros [] (L1 & L2 & L3 & L4 & L5 & L6 & L7 & L8 & L9).
  unfold arrays_len.
  repeat match goal with H : _ a' = _ |- _ => rewrite H; clear H end.
  rewrite !length_insert. tauto.
Qed.

Lemma body_spec_other self i v a v' a' j :
  body_spec np_mean self i v a v' a' -> j <> i -> arrays_at j a' = arrays_at j a.
Proof.
  intros [] Hj. unfold arrays_at.
  repeat match goal with H : _ a' = _ |- _ => rewrite H; clear H end.
  rewrite !list_lookup_insert_ne by congruence. reflexivity.
Qed.

Lemma state_after_step self k v' a' :
  state_after np_mean self (S k) = Ok (v', a') ->
  exists v a, state_after np_mean self k = Ok (v, a) /\
              body_spec np_mean self k v a v' a'.
Proof.
  rewrite state_after_S. intros H. ok_inv H E. destruct r as [v a].
  exists v, a. split; [assumption|]. apply loop_body_inv. assumption.
Qed.

Lemma state_after_len self k v a :
  state_after np_mean self k = Ok (v, a) ->
  arrays_len (df_len (data self)) a /\ (k <= df_len (data self))%nat.
Proof.
  revert v a. induction k as [|k IH]; intros v a H.
  - injection H as <- <-. split; [apply init_arrays_len | lia].
  - apply state_after_step in H as (v0 & a0 & H0 & Hb).
    destruct (IH _ _ H0) as [Hl Hk]. split; [eapply body_spec_len; eauto|].
    destruct Hb as [? ? ? ? ? ? ? ? ? _ _ _ Hbd]. destruct Hbd as [Hbd _].
    destruct Hl as [Hl _]. lia.
Qed.

Lemma state_after_total self k :
  price_frame (data self) = true ->
  rng_per self <> (-1)%Z -> smooth_per self <> (-1)%Z ->
  (k <= df_len (data self))%nat ->
  exists v a, state_after np_mean self k = Ok (v, a).
Proof.
  intros Hf Hn Hs. induction k as [|k IH]; intros Hk.
  - eexists _, _. reflexivity.
  - destruct IH as (v & a & H); [lia|].
    rewrite state_after_S, H. cbn.
    apply loop_body_total; try assumption; try lia.
    apply (state_after_len _ _ _ _ H).
Qed.

Lemma state_after_le self k m st :
  state_after np_mean self m = Ok st -> (k <= m)%nat ->
  exists st', state_after np_mean self k = Ok st'.
Proof.
  revert st. induction m as [|m IH]; intros st H Hk.
  - replace k with 0%nat by lia. eauto.
  - destruct (decide (k = S m)) as [->|Hne]; [eauto|].
    destruct st as [v' a'].
    apply state_after_step in H as (v & a & H & _).
    eapply IH; [eassumption | lia].
Qed.

Lemma state_after_stable self i m v1 a1 v2 a2 :
  state_after np_mean self (S i) = Ok (v1, a1) ->
  state_after np_mean self m = Ok (v2, a2) -> (i < m)%nat ->
  arrays_at i a2 = arrays_at i a1.
Proof.
  intros H1. revert v2 a2. induction m as [|m IH]; intros v2 a2 H2 Hm; [lia|].
  destruct (decide (i = m)) as [->|Hne].
  - congruence.
  - apply state_after_step in H2 as (v & a & H2 & Hb).
    rewrite (body_spec_other _ _ _ _ _ _ i Hb) by assumption.
    eapply IH; [eassumption | lia].
Qed.

Lemma run_Ok self a df :
  run np_mean self = Ok (a, df) <->
  (exists v, state_after np_mean self (df_len (data self)) = Ok (v, a)) /\
  df = append_results (data self) a.
Proof.
  unfold run. split.
  - intros H. ok_inv H E. destruct r as [v a0]. injection H as <- <-. eauto.
  - intros [[v ->] ->]. reflexivity.
Qed.

Lemma run_total self :
  price_frame (data self) = true ->
  rng_per self <> (-1)%Z -> smooth_per self <> (-1)%Z ->
  exists v a, state_after np_mean self (df_len (data self)) = Ok (v, a) /\
    run np_mean self = Ok (a, append_results (data self) a).
Proof.
  intros Hf Hn Hs.
  destruct (state_after_total self (df_len (data self)) Hf Hn Hs) as (v & a & H); [lia|].
  exists v, a. split; [assumption|]. apply run_Ok. eauto.
Qed.

(** The row of bar [i] in the final arrays is the one iteration [i] wrote. *)
Lemma run_row self a df i v1 a1 :
  run np_mean self = Ok (a, df) ->
  state_after np_mean self (S i) = Ok (v1, a1) ->
  arrays_at i a = arrays_at i a1.
Proof.
  intros H H1. apply run_Ok in H as [[v H] _].
  eapply state_after_stable; [eassumption..|].
  apply state_after_len in H1. lia.
Qed.

(** ** What [rng_size] and [rng_filt] return *)

Lemma rng_size_inv self x i pac patr psd acl sdl rs pac' patr' psd' acl' sdl' :
  rng_size np_mean self x i pac patr psd acl sdl
  = Ok (rs, pac', patr', psd', acl', sdl') ->
  sdl' = push_window (rng_per self) sdl x /\ acl' = acl /\
  rng_per self <> (-1)%Z /\
  select_rng_size self i pac' patr' psd' = Ok rs.
Proof.
  unfold rng_size. intros H.
  ok_inv H Etr. ok_inv H Eatr. ok_inv H Eac. ok_inv H Epac. ok_inv H Esel.
  injection H as <- <- <- <- <- <-.
  apply Cond_EMA_inv in Eatr as [Hn _]. auto.
Qed.

Lemma rng_filt_inv self h l rs i rp ps cnt vals hb lb f rp' ps' cnt' vals' :
  rng_filt np_mean self h l rs i rp ps cnt vals
  = Ok (hb, lb, f, rp', ps', cnt', vals') ->
  Cond_EMA rs true (smooth_per self) ps = Ok ps' /\
  let r := if smooth_range self then ps' else rs in
  rp' = next_rfilt (f_type self) h l r rp /\
  hb = (f + r)%float /\ lb = (f - r)%float /\
  if av_vals self then
    vals' = (if negb (rp' =? rp)%float
             then push_window (av_samples self) vals rp' else vals) /\
    cnt' = (if negb (rp' =? rp)%float then (cnt + 1)%Z else cnt) /\
    f = match vals' with [] => rp' | _ :: _ => np_mean vals' end
  else vals' = vals /\ cnt' = cnt /\ f = rp'.
Proof.
  unfold rng_filt. intros H. ok_inv H E. rename r into s.
  destruct (av_vals self); injection H as <- <- <- <- <- <- <-; auto 10.
Qed.

(** Everything the claims need about bar [i], from the states before and
    after its iteration. *)
Lemma bar_step self i v a v' a' :
  state_after np_mean self i = Ok (v, a) ->
  state_after np_mean self (S i) = Ok (v', a') ->
  exists h l r f,
    movement self i = Ok (h, l) /\
    effective_range np_mean self i = Ok r /\
    rfilt_prev v' = next_rfilt (f_type self) h l r (rfilt_prev v) /\
    filt a' !! i = Some f /\
    h_band a' !! i = Some (f + r)%float /\
    l_band a' !! i = Some (f - r)%float /\
    sd_list v' = push_window (rng_per self) (sd_list v) ((h + l) / 2)%float /\
    if av_vals self then
      filt_change_values v'
      = (if negb (rfilt_prev v' =? rfilt_prev v)%float
         then push_window (av_samples self) (filt_change_values v) (rfilt_prev v')
         else filt_change_values v) /\
      filt_change_count v'
      = (if negb (rfilt_prev v' =? rfilt_prev v)%float
         then (filt_change_count v + 1)%Z else filt_change_count v) /\
      f = match filt_change_values v' with
          | [] => rfilt_prev v'
          | _ :: _ => np_mean (filt_change_values v')
          end
    else
      filt_change_values v' = filt_change_values v /\
      filt_change_count v' = filt_change_count v /\
      f = rfilt_prev v'.
Proof.
  intros H0 H1. rewrite state_after_S, H0 in H1. cbn in H1.
  apply loop_body_inv in H1.
  destruct H1 as [h l rs hb lb f d fc bc Hmov Hsize Hfilt Hbd Ef Eh El _ _ _ _ _ _ _ _].
  destruct Hbd as (B1 & B2 & B3 & _).
  pose proof (rng_size_inv _ _ _ _ _ _ _ _ _ _ _ _ _ _ Hsize) as (Esd & _ & _ & _).
  pose proof (rng_filt_inv _ _ _ _ _ _ _ _ _ _ _ _ _ _ _ _ Hfilt)
    as (Eema & Erp & Ehb & Elb & Hav).
  exists h, l, (if smooth_range self then prev_rng_smooth v' else rs), f.
  split; [assumption|]. split.
  { unfold effective_range. rewrite H0. cbn. rewrite Hmov. cbn.
    rewrite Hsize. cbn. rewrite Eema. reflexivity. }
  split; [assumption|].
  rewrite Ef, Eh, El, !list_lookup_insert_eq by assumption.
  subst hb lb. auto.
Qed.

(** ** The anchor update *)

Lemma next_rfilt_contained h l r p :
  (h - r <=? p)%float = true -> (p <=? l + r)%float = true ->
  next_rfilt "Type 1" h l r p = p.
Proof.
  intros H1 H2. unfold next_rfilt.
  rewrite (FloatOrder.leb_not_nan_r _ _ H1). cbn.
  rewrite (FloatOrder.leb_not_gt _ _ H1), (FloatOrder.leb_not_gt _ _ H2).
  reflexivity.
Qed.

Lemma next_rfilt_quantized h l r p :
  is_nan p = false ->
  next_rfilt "Type 2" h l r p
  = (if (p + r <=? h)%float then
       (p + np_floor (PrimFloat.abs (h - p) / r) * r)%float
     else if (l <=? p - r)%float then
       (p - np_floor (PrimFloat.abs (l - p) / r) * r)%float
     else p).
Proof. intros Hp. unfold next_rfilt. rewrite Hp. reflexivity. Qed.

(** Bar [i] of a run on a well-formed frame is processed, and the states
    around it are related as [bar_step] says. *)
Lemma bar_processed self i :
  price_frame (data self) = true ->
  rng_per self <> (-1)%Z -> smooth_per self <> (-1)%Z ->
  (i < df_len (data self))%nat ->
  exists v a v' a',
    state_after np_mean self i = Ok (v, a) /\
    state_after np_mean self (S i) = Ok (v', a').
Proof.
  intros Hf Hn Hs Hi.
  destruct (state_after_total self (S i) Hf Hn Hs) as (v' & a' & H1); [lia|].
  destruct (state_after_step _ _ _ _ H1) as (v & a & H0 & _).
  exists v, a, v', a'. auto.
Qed.

(** C1. In Ratchet mode ('Type 1'), on every bar [i] of a run: when
    [h - r <= anchor_prev] and [anchor_prev <= l + r], with [h], [l] the
    movement extremes of the bar and [r] its effective range, the anchor
    after the bar is the anchor before it.  (The two comparisons can only
    hold when the previous anchor is defined, that is, not NaN.) *)
Theorem ratchet_containment self i :
  price_frame (data self) = true ->
  rng_per self <> (-1)%Z -> smooth_per self <> (-1)%Z ->
  (i < df_len (data self))%nat ->
  f_type self = "Type 1" ->
  exists v a v' a' h l r,
    state_after np_mean self i = Ok (v, a) /\
    state_after np_mean self (S i) = Ok (v', a') /\
    movement self i = Ok (h, l) /\
    effective_range np_mean self i = Ok r /\
    ((h - r <=? rfilt_prev v)%float = true ->
     (rfilt_prev v <=? l + r)%float = true ->
     rfilt_prev v' = rfilt_prev v).
Proof.
  intros Hf Hn Hs Hi Ht.
  destruct (bar_processed self i Hf Hn Hs Hi) as (v & a & v' & a' & H0 & H1).
  destruct (bar_step _ _ _ _ _ _ H0 H1) as (h & l & r & f & Hm & Hr & Ea & _).
  exists v, a, v', a', h, l, r. repeat (split; [assumption|]).
  intros C1 C2. rewrite Ea, Ht. apply next_rfilt_contained; assumption.
Qed.

(** C2. In QuantizedRatchet mode ('Type 2'), on every bar whose previous
    anchor is defined (not NaN), with effective range [r]: if
    [h >= anchor_prev + r] the new anchor is
    [anchor_prev + floor(|h - anchor_prev| / r) * r]; else if
    [l <= anchor_prev - r] it is
    [anchor_prev - floor(|l - anchor_prev| / r) * r]; otherwise it is
    unchanged.  On a bar whose previous anchor is undefined, as it is on
    the first bar, the anchor is seeded with the movement midpoint. *)
Theorem quantized_ratchet_step self i :
  price_frame (data self) = true ->
  rng_per self <> (-1)%Z -> smooth_per self <> (-1)%Z ->
  (i < df_len (data self))%nat ->
  f_type self = "Type 2" ->
  exists v a v' a' h l r,
    state_after np_mean self i = Ok (v, a) /\
    state_after np_mean self (S i) = Ok (v', a') /\
    movement self i = Ok (h, l) /\
    effective_range np_mean self i = Ok r /\
    (is_nan (rfilt_prev v) = false ->
     let p := rfilt_prev v in
     ((p + r <=? h)%float = true ->
      rfilt_prev v' = (p + np_floor (PrimFloat.abs (h - p) / r) * r)%float) /\
     ((p + r <=? h)%float = false -> (l <=? p - r)%float = true ->
      rfilt_prev v' = (p - np_floor (PrimFloat.abs (l - p) / r) * r)%float) /\
     ((p + r <=? h)%float = false -> (l <=? p - r)%float = false ->
      rfilt_prev v' = p)) /\
    (is_nan (rfilt_prev v) = true -> rfilt_prev v' = ((h + l) / 2)%float) /\
    (i = 0%nat -> is_nan (rfilt_prev v) = true).
Proof.
  intros Hf Hn Hs Hi Ht.
  destruct (bar_processed self i Hf Hn Hs Hi) as (v & a & v' & a' & H0 & H1).
  destruct (bar_step _ _ _ _ _ _ H0 H1) as (h & l & r & f & Hm & Hr & Ea & _).
  exists v, a, v', a', h, l, r. repeat (split; [assumption|]).
  split; [|split].
  - intros Hp p. rewrite Ea, Ht, (next_rfilt_quantized _ _ _ _ Hp). fold p.
    repeat split.
    + intros ->. reflexivity.
    + intros -> ->. reflexivity.
    + intros -> ->. reflexivity.
  - intros Hp. rewrite Ea. unfold next_rfilt. rewrite Hp. reflexivity.
  - intros ->.
    change (state_after np_mean self 0)
      with (Ok (init_vars, init_arrays (df_len (data self)))) in H0.
    injection H0 as <- <-. reflexivity.
Qed.

(** C3 (as amended). On every bar [i] of every run, in the averaging and in
    the non-averaging configuration, the emitted bands are
    [highBand[i] = filterValue[i] + r] and [lowBand[i] = filterValue[i] - r]
    (float64 sum and difference), [r] being the effective range of the bar. *)
Theorem band_equations self i :
  price_frame (data self) = true ->
  rng_per self <> (-1)%Z -> smooth_per self <> (-1)%Z ->
  (i < df_len (data self))%nat ->
  exists a df r f,
    run np_mean self = Ok (a, df) /\
    effective_range np_mean self i = Ok r /\
    filt a !! i = Some f /\
    h_band a !! i = Some (f + r)%float /\
    l_band a !! i = Some (f - r)%float.
Proof.
  intros Hf Hn Hs Hi.
  destruct (run_total self Hf Hn Hs) as (vn & an & _ & Hrun).
  destruct (bar_processed self i Hf Hn Hs Hi) as (v & a & v' & a' & H0 & H1).
  destruct (bar_step _ _ _ _ _ _ H0 H1)
    as (h & l & r & f & _ & Hr & _ & Ef & Eh & El & _).
  pose proof (run_row _ _ _ _ _ _ Hrun H1) as Hrow.
  unfold arrays_at in Hrow. injection Hrow as R1 R2 R3 _ _ _ _ _ _.
  exists an, (append_results (data self) an), r, f.
  split; [assumption|]. split; [assumption|].
  rewrite R1, R2, R3. auto.
Qed.

(** ** The trend classifier *)

Lemma direction_inv i (fl fd : list float) d :
  direction i fl fd = Ok d ->
  match i with
  | O => d = 0%float
  | S j =>
      exists fi fp, fl !! i = Some fi /\ fl !! j = Some fp /\
        ((fp <? fi)%float = true /\ d = 1%float \/
         (fp <? fi)%float = false /\ (fi <? fp)%float = true /\ d = (-1)%float \/
         (fp <? fi)%float = false /\ (fi <? fp)%float = false /\ fd !! j = Some d)
  end.
Proof.
  destruct i as [|j]; simpl; [congruence|].
  intros H. ok_inv H E1. ok_inv H E2. rename r into fi, r0 into fp.
  apply getidx_Ok in E1, E2. exists fi, fp. repeat (split; [assumption|]).
  destruct (fp <? fi)%float; [left; split; congruence|].
  destruct (fi <? fp)%float; [right; left; repeat split; congruence|].
  right; right. apply getidx_Ok in H. auto.
Qed.

(** The row iteration [i] writes into the direction arrays. *)
Lemma bar_direction self i v a v' a' :
  state_after np_mean self i = Ok (v, a) ->
  state_after np_mean self (S i) = Ok (v', a') ->
  exists d,
    direction i (filt a') (fdir a) = Ok d /\
    fdir a' !! i = Some d /\
    upward a' !! i = Some (if (d =? 1)%float then 1 else 0)%float /\
    downward a' !! i = Some (if (d =? -1)%float then 1 else 0)%float /\
    external_trend_output a' !! i = Some d.
Proof.
  intros H0 H1. rewrite state_after_S, H0 in H1. cbn in H1.
  apply loop_body_inv in H1.
  destruct H1 as [h l rs hb lb f d fc bc _ _ _ Hbd _ _ _ Hd Ed Eu Edn _ _ _ Ee].
  destruct Hbd as (_ & _ & _ & B4 & B5 & B6 & _ & _ & B9).
  exists d. rewrite Ed, Eu, Edn, Ee, !list_lookup_insert_eq by assumption. auto.
Qed.

(** Every entry of [fdir] is 0, 1 or -1, at every stage of the loop. *)
Lemma fdir_trit self k v a j d :
  state_after np_mean self k = Ok (v, a) -> fdir a !! j = Some d -> trit d.
Proof.
  revert v a j d. induction k as [|k IH]; intros v a j d H Hj.
  - injection H as <- <-. simpl in Hj.
    apply lookup_replicate in Hj as [-> _]. left; reflexivity.
  - destruct (state_after_step _ _ _ _ H) as (v0 & a0 & H0 & Hb).
    destruct (decide (j = k)) as [->|Hne].
    + destruct (bar_direction _ _ _ _ _ _ H0 H) as (d' & Hd & Ed & _).
      assert (d' = d) as -> by congruence.
      apply direction_inv in Hd. destruct k as [|k'].
      * left; assumption.
      * destruct Hd as (fi & fp & _ & _ & [[_ ->]|[(_ & _ & ->)|(_ & _ & Hp)]]).
        -- right; left; reflexivity.
        -- right; right; reflexivity.
        -- eapply IH; eassumption.
    + pose proof (body_spec_other _ _ _ _ _ _ j Hb Hne) as Hrow.
      unfold arrays_at in Hrow. injection Hrow as _ _ _ R _ _ _ _ _.
      rewrite R in Hj. eapply IH; eassumption.
Qed.

Lemma trit_flags d :
  trit d ->
  (truthy (if (d =? 1)%float then 1 else 0)%float = true <-> d = 1%float) /\
  (truthy (if (d =? -1)%float then 1 else 0)%float = true <-> d = (-1)%float).
Proof.
  assert (N : forall x y : float, (x =? y)%float = false -> is_nan x = false -> x <> y).
  { intros x y E Hx ->. unfold is_nan in Hx. rewrite E in Hx. discriminate. }
  intros [-> | [-> | ->]]; vm_compute; (split; split; intros H; try reflexivity; try discriminate);
    exfalso; revert H; apply N; reflexivity.
Qed.

(** C4. For every run: [direction[0] = 0]; for [i > 0], [direction[i]] is 1
    when [filterValue[i] > filterValue[i-1]], -1 when it is smaller, and
    [direction[i-1]] when the two are equal; and on every bar [isUpward[i]]
    holds iff [direction[i] = 1] and [isDownward[i]] holds iff
    [direction[i] = -1]. *)
Theorem direction_classification self :
  price_frame (data self) = true ->
  rng_per self <> (-1)%Z -> smooth_per self <> (-1)%Z ->
  exists a df,
    run np_mean self = Ok (a, df) /\
    ((0 < df_len (data self))%nat -> fdir a !! 0%nat = Some 0%float) /\
    (forall i, (S i < df_len (data self))%nat ->
       exists fp fi d,
         filt a !! i = Some fp /\ filt a !! S i = Some fi /\
         fdir a !! S i = Some d /\
         ((fp <? fi)%float = true -> d = 1%float) /\
         ((fi <? fp)%float = true -> d = (-1)%float) /\
         ((fi =? fp)%float = true -> fdir a !! i = Some d)) /\
    (forall i, (i < df_len (data self))%nat ->
       exists d up dn,
         fdir a !! i = Some d /\ upward a !! i = Some up /\
         downward a !! i = Some dn /\ trit d /\
         (truthy up = true <-> d = 1%float) /\
         (truthy dn = true <-> d = (-1)%float)).
Proof.
  intros Hf Hn Hs.
  destruct (run_total self Hf Hn Hs) as (vn & an & Hst & Hrun).
  exists an, (append_results (data self) an). split; [assumption|].
  assert (Row : forall i, (i < df_len (data self))%nat ->
            exists v a v' a',
              state_after np_mean self i = Ok (v, a) /\
              state_after np_mean self (S i) = Ok (v', a') /\
              arrays_at i an = arrays_at i a').
  { intros i Hi.
    destruct (bar_processed self i Hf Hn Hs Hi) as (v & a & v' & a' & H0 & H1).
    exists v, a, v', a'. repeat (split; [assumption|]).
    eapply run_row; eassumption. }
  split; [|split].
  - intros H. destruct (Row 0%nat H) as (v & a & v' & a' & H0 & H1 & R).
    destruct (bar_direction _ _ _ _ _ _ H0 H1) as (d & Hd & Ed & _).
    apply direction_inv in Hd. subst d.
    unfold arrays_at in R. injection R as _ _ _ R _ _ _ _ _. congruence.
  - intros i Hi.
    destruct (Row (S i) Hi) as (v & a & v' & a' & H0 & H1 & R).
    destruct (Row i) as (v0 & a0 & v1 & a1 & H00 & H01 & R0); [lia|].
    assert (v1 = v /\ a1 = a) as [-> ->] by (split; congruence).
    destruct (bar_direction _ _ _ _ _ _ H0 H1) as (d & Hd & Ed & _).
    apply direction_inv in Hd. destruct Hd as (fi & fp & Efi & Efp & Hcase).
    assert (Rp : arrays_at i a' = arrays_at i a).
    { eapply state_after_stable; [exact H01 | exact H1 | lia]. }
    unfold arrays_at in R, R0, Rp.
    injection R as R1 _ _ R4 _ _ _ _ _.
    injection R0 as R01 _ _ R04 _ _ _ _ _.
    injection Rp as Rp1 _ _ _ _ _ _ _ _.
    exists fp, fi, d.
    rewrite R1, R4, R01, R04, <- Rp1. repeat (split; [assumption|]).
    destruct Hcase as [[C1 ->]|[(C1 & C2 & ->)|(C1 & C2 & Hp)]].
    + split; [reflexivity|]. split.
      * intros C. rewrite (FloatOrder.ltb_asym _ _ C1) in C. discriminate.
      * intros C. apply FloatOrder.eqb_not_lt in C as [_ C]. congruence.
    + split; [congruence|]. split; [reflexivity|].
      intros C. apply FloatOrder.eqb_not_lt in C as [C _]. congruence.
    + split; [congruence|]. split; [congruence|]. intros _. assumption.
  - intros i Hi.
    destruct (Row i Hi) as (v & a & v' & a' & H0 & H1 & R).
    destruct (bar_direction _ _ _ _ _ _ H0 H1) as (d & _ & Ed & Eu & Edn & _).
    unfold arrays_at in R. injection R as _ _ _ R4 R5 R6 _ _ _.
    exists d, (if (d =? 1)%float then 1 else 0)%float,
           (if (d =? -1)%float then 1 else 0)%float.
    rewrite R4, R5, R6. repeat (split; [assumption|]).
    pose proof (fdir_trit _ _ _ _ _ _ H1 Ed) as Ht.
    split; [assumption|]. apply trit_flags. assumption.
Qed.

(** ** The first bar *)

Lemma iloc_float_cell df c i v : iloc df c i = Ok v <-> float_cell df c i = Some v.
Proof.
  unfold iloc, float_cell.
  destruct (df_columns df !! c) as [[xs|xs]|]; try (split; discriminate).
  destruct (xs !! i); split; congruence.
Qed.

Lemma movement_wicks self i h l :
  mov_src self = "Wicks" -> movement self i = Ok (h, l) ->
  float_cell (data self) "high" i = Some h /\
  float_cell (data self) "low" i = Some l.
Proof.
  unfold movement. intros -> H. cbn in H.
  ok_inv H Eh. ok_inv H El. injection H as <- <-.
  split; apply iloc_float_cell; assumption.
Qed.

Lemma state_after_0 self :
  state_after np_mean self 0
  = Ok (init_vars, init_arrays (df_len (data self))).
Proof. reflexivity. Qed.

(** C5. For every non-empty input with [movementSource = Wicks] and
    averaging disabled, the first bar's output has
    [filterValue[0] = (high[0] + low[0]) / 2] and [direction[0] = 0]. *)
Theorem first_bar_seed self :
  price_frame (data self) = true ->
  rng_per self <> (-1)%Z -> smooth_per self <> (-1)%Z ->
  (0 < df_len (data self))%nat ->
  mov_src self = "Wicks" -> av_vals self = false ->
  exists a df h0 l0,
    run np_mean self = Ok (a, df) /\
    float_cell (data self) "high" 0 = Some h0 /\
    float_cell (data self) "low" 0 = Some l0 /\
    filt a !! 0%nat = Some ((h0 + l0) / 2)%float /\
    fdir a !! 0%nat = Some 0%float.
Proof.
  intros Hf Hn Hs Hlen Hw Hav.
  destruct (run_total self Hf Hn Hs) as (vn & an & _ & Hrun).
  destruct (bar_processed self 0 Hf Hn Hs Hlen) as (v & a & v' & a' & H0 & H1).
  rewrite state_after_0 in H0. injection H0 as <- <-.
  destruct (bar_step _ _ _ _ _ _ (state_after_0 self) H1)
    as (h & l & r & f & Hm & _ & Ea & Ef & _ & _ & _ & Hcase).
  rewrite Hav in Hcase. destruct Hcase as (_ & _ & ->).
  destruct (movement_wicks _ _ _ _ Hw Hm) as [Eh El].
  destruct (bar_direction _ _ _ _ _ _ (state_after_0 self) H1) as (d & Hd & Ed & _).
  apply direction_inv in Hd. subst d.
  pose proof (run_row _ _ _ _ _ _ Hrun H1) as R.
  unfold arrays_at in R. injection R as R1 _ _ R4 _ _ _ _ _.
  exists an, (append_results (data self) an), h, l.
  rewrite R1, R4, Ef, Ea. repeat (split; [assumption|]).
  split; [reflexivity | assumption].
Qed.

(** ** The sliding windows *)


Lemma push_window_nonempty n lst x : (0 < n)%Z -> push_window n lst x <> [].
Proof.
  intros Hn. unfold push_window.
  destruct (Z.ltb_spec n (Z.of_nat (length (lst ++ [x])))) as [H|H].
  - rewrite length_app in H. simpl in H.
    destruct lst as [|y [|z lst]]; simpl in *; try lia; discriminate.
  - destruct lst; discriminate.
Qed.




(** With averaging on, the change window is never empty once a bar has been
    processed. *)
Lemma change_window_nonempty self k v a :
  av_vals self = true -> (0 < av_samples self)%Z ->
  state_after np_mean self (S k) = Ok (v, a) -> filt_change_values v <> [].
Proof.
  intros Hav Hn. revert v a. induction k as [|k IH]; intros v a H;
    destruct (state_after_step _ _ _ _ H) as (v0 & a0 & H0 & _);
    destruct (bar_step _ _ _ _ _ _ H0 H)
      as (h & l & r & f & _ & _ & Ea & _ & _ & _ & _ & Hcase);
    rewrite Hav in Hcase; destruct Hcase as (-> & _ & _).
  - rewrite state_after_0 in H0. injection H0 as <- <-. simpl.
    rewrite FloatOrder.is_nan_neqb by reflexivity. simpl.
    apply push_window_nonempty. assumption.
  - destruct (negb _); [apply push_window_nonempty; assumption|].
    eapply IH. eassumption.
Qed.

(** C10. With [averageFilterChanges] on, the seed of bar 0 is itself counted
    as a filter change: after bar 0 the change window is [[seed]] and the
    change counter is 1; so after every bar [i] the change window is
    non-empty and the emitted [filterValue[i]] is the mean of the window
    (the fallback to the raw anchor is never taken). *)
Theorem seed_counts_as_change self i :
  price_frame (data self) = true ->
  rng_per self <> (-1)%Z -> smooth_per self <> (-1)%Z ->
  av_vals self = true -> (0 < av_samples self)%Z ->
  (i < df_len (data self))%nat ->
  exists a df v' a' v1 a1 h0 l0,
    run np_mean self = Ok (a, df) /\
    state_after np_mean self (S i) = Ok (v', a') /\
    filt_change_values v' <> [] /\
    filt a !! i = Some (np_mean (filt_change_values v')) /\
    state_after np_mean self 1 = Ok (v1, a1) /\
    movement self 0 = Ok (h0, l0) /\
    filt_change_values v1 = [((h0 + l0) / 2)%float] /\
    filt_change_count v1 = 1%Z.
Proof.
  intros Hf Hn Hs Hav Hsamp Hi.
  destruct (run_total self Hf Hn Hs) as (vn & an & _ & Hrun).
  destruct (bar_processed self i Hf Hn Hs Hi) as (v & a & v' & a' & H0 & H1).
  destruct (bar_processed self 0 Hf Hn Hs) as (w & b & v1 & a1 & G0 & G1); [lia|].
  rewrite state_after_0 in G0. injection G0 as <- <-.
  destruct (bar_step _ _ _ _ _ _ (state_after_0 self) G1)
    as (h0 & l0 & r0 & f0 & Hm0 & _ & Ea0 & _ & _ & _ & _ & Hcase0).
  rewrite Hav in Hcase0. destruct Hcase0 as (Ew & Ec & _).
  simpl in Ea0, Ew, Ec.
  rewrite FloatOrder.is_nan_neqb in Ew, Ec by reflexivity. simpl in Ew, Ec.
  destruct (bar_step _ _ _ _ _ _ H0 H1)
    as (h & l & r & f & _ & _ & _ & Ef & _ & _ & _ & Hcase).
  rewrite Hav in Hcase. destruct Hcase as (_ & _ & Efv).
  pose proof (change_window_nonempty _ _ _ _ Hav Hsamp H1) as Hne.
  pose proof (run_row _ _ _ _ _ _ Hrun H1) as R.
  unfold arrays_at in R. injection R as R1 _ _ _ _ _ _ _ _.
  exists an, (append_results (data self) an), v', a', v1, a1, h0, l0.
  repeat (split; [assumption|]).
  split; [|split; [assumption | split; [assumption|]]].
  - rewrite R1, Ef. f_equal. rewrite Efv.
    destruct (filt_change_values v'); [congruence | reflexivity].
  - split; [|assumption].
    rewrite Ew, Ea0. unfold push_window. simpl.
    assert ((av_samples self <? Z.of_nat 1)%Z = false) as ->
      by (apply Z.ltb_ge; simpl; lia).
    reflexivity.
Qed.

(** ** Configuration: the range scale *)

Lemma for_each_ext {S} (f g : nat -> S -> result S) idx s :
  (forall i s, f i s = g i s) -> for_each f idx s = for_each g idx s.
Proof.
  intros E. revert s. induction idx as [|i idx IH]; intros s; simpl; [reflexivity|].
  rewrite E. destruct (g i s); simpl; [apply IH | reflexivity].
Qed.

Lemma select_unknown_scale self i pac patr psd :
  known_scale (rng_scale self) = false ->
  select_rng_size self i pac patr psd
  = select_rng_size (with_scale self "Absolute") i pac patr psd.
Proof.
  unfold known_scale, select_rng_size. intros H.
  rewrite !orb_false_iff in H.
  destruct H as (((((((H1 & H2) & H3) & H4) & H5) & H6) & H7) & H8).
  simpl. rewrite H1, H2, H3, H4, H5, H6, H7. reflexivity.
Qed.

Lemma rng_size_unknown_scale self x i pac patr psd acl sdl :
  known_scale (rng_scale self) = false ->
  rng_size np_mean self x i pac patr psd acl sdl
  = rng_size np_mean (with_scale self "Absolute") x i pac patr psd acl sdl.
Proof.
  intros H. unfold rng_size.
  change (data (with_scale self "Absolute")) with (data self).
  change (rng_per (with_scale self "Absolute")) with (rng_per self).
  repeat match goal with
         | |- ?m ≫= _ = ?m ≫= _ => destruct m; cbn; [|reflexivity]
         end.
  rewrite (select_unknown_scale self i _ _ _ H). reflexivity.
Qed.

Lemma loop_body_unknown_scale self i st :
  known_scale (rng_scale self) = false ->
  loop_body np_mean self i st
  = loop_body np_mean (with_scale self "Absolute") i st.
Proof.
  intros H. destruct st as [v a]. unfold loop_body.
  change (movement (with_scale self "Absolute") i) with (movement self i).
  destruct (movement self i) as [[h l]|e]; cbn; [|reflexivity].
  rewrite (rng_size_unknown_scale self _ i _ _ _ _ _ H). reflexivity.
Qed.

Lemma run_unknown_scale self :
  known_scale (rng_scale self) = false ->
  run np_mean self = run np_mean (with_scale self "Absolute").
Proof.
  intros H. unfold run, state_after.
  change (data (with_scale self "Absolute")) with (data self).
  rewrite (for_each_ext (loop_body np_mean self)
             (loop_body np_mean (with_scale self "Absolute"))); [reflexivity|].
  intros i st. apply loop_body_unknown_scale. assumption.
Qed.

(** C6 (as amended). For the eight valid scale names, and for any other
    string, the range-size selection raises no error: the run completes.  A
    scale that is not one of the eight names is not rejected; the run uses
    [rangeSize = rangeQty], exactly as with 'Absolute'. *)
Theorem unknown_scale_runs_as_absolute self :
  price_frame (data self) = true ->
  rng_per self <> (-1)%Z -> smooth_per self <> (-1)%Z ->
  (exists a df, run np_mean self = Ok (a, df)) /\
  (known_scale (rng_scale self) = false ->
   run np_mean self = run np_mean (with_scale self "Absolute") /\
   forall i pac patr psd,
     select_rng_size self i pac patr psd = Ok (rng_qty self)).
Proof.
  intros Hf Hn Hs. split.
  - destruct (run_total self Hf Hn Hs) as (v & a & _ & H). eauto.
  - intros H. split; [apply run_unknown_scale; assumption|].
    intros i pac patr psd. rewrite (select_unknown_scale _ _ _ _ _ H).
    reflexivity.
Qed.

(** ** Inputs the run does not reject *)

Lemma run_empty self :
  df_len (data self) = 0%nat ->
  run np_mean self
  = Ok (init_arrays 0, append_results (data self) (init_arrays 0)).
Proof. intros E. unfold run, state_after. rewrite E. reflexivity. Qed.

(** C7 (as amended). A run on an empty input sequence, and a run on bars
    with non-finite fields (nothing is assumed of the floats in the frame),
    completes and emits its result arrays, one entry per bar; no input error
    is raised. *)
Theorem run_completes_on_any_bars self :
  df_len (data self) = 0%nat \/
  (price_frame (data self) = true /\
   rng_per self <> (-1)%Z /\ smooth_per self <> (-1)%Z) ->
  exists a df,
    run np_mean self = Ok (a, df) /\ arrays_len (df_len (data self)) a /\
    df = append_results (data self) a.
Proof.
  intros [E | (Hf & Hn & Hs)].
  - exists (init_arrays 0), (append_results (data self) (init_arrays 0)).
    split; [apply run_empty; assumption|]. split; [|reflexivity].
    rewrite E. apply init_arrays_len.
  - destruct (run_total self Hf Hn Hs) as (v & a & Hst & H).
    exists a, (append_results (data self) a).
    split; [assumption|]. split; [|reflexivity].
    apply (state_after_len _ _ _ _ Hst).
Qed.

(** ** The caller's frame *)

Lemma append_results_other df a c :
  c <> "filt" -> c <> "h_band" -> c <> "l_band" -> c <> "fdir" ->
  c <> "upward" -> c <> "downward" -> c <> "filt_color" ->
  c <> "bar_color" -> c <> "external_trend_output" ->
  df_columns (append_results df a) !! c = df_columns df !! c.
Proof.
  intros. unfold append_results, setitem. simpl.
  rewrite !lookup_insert_ne by congruence. reflexivity.
Qed.

Lemma data_after_column self c :
  c <> "filt" -> c <> "h_band" -> c <> "l_band" -> c <> "fdir" ->
  c <> "upward" -> c <> "downward" -> c <> "filt_color" ->
  c <> "bar_color" -> c <> "external_trend_output" ->
  df_columns (data_after np_mean self) !! c = df_columns (data self) !! c.
Proof.
  intros. unfold data_after.
  destruct (run np_mean self) as [[a df]|e] eqn:E; [|reflexivity].
  apply run_Ok in E as [_ ->]. apply append_results_other; assumption.
Qed.

(** C8. Constructing the object on a frame and running it leaves every
    input bar as it was: the [open], [high], [low] and [close] columns, and
    so the bar read at any position, are the same before and after. *)
Theorem run_keeps_price_bars d ft ms qty scale per smooth sper av avn :
  let self := RangeFilter_init d ft ms qty scale per smooth sper av avn in
  df_columns (data_after np_mean self) !! "open" = df_columns d !! "open" /\
  df_columns (data_after np_mean self) !! "high" = df_columns d !! "high" /\
  df_columns (data_after np_mean self) !! "low" = df_columns d !! "low" /\
  df_columns (data_after np_mean self) !! "close" = df_columns d !! "close" /\
  forall i, price_bar (data_after np_mean self) i = price_bar d i.
Proof.
  intros self.
  assert (C : forall c, c = "open" \/ c = "high" \/ c = "low" \/ c = "close" ->
            df_columns (data_after np_mean self) !! c = df_columns d !! c).
  { intros c Hc. rewrite data_after_column;
      [reflexivity | destruct Hc as [->|[->|[->| ->]]]; discriminate ..]. }
  repeat (split; [apply C; tauto|]).
  intros i. unfold price_bar, float_cell. rewrite !C by tauto. reflexivity.
Qed.

End Run.

(** * Concrete runs *)

(** The evaluations below use [mean_seq] for [np.mean]. *)

Ltac concrete := first [reflexivity | vm_compute; reflexivity | vm_compute; lia].

(** The spec's scenario of five equal bars: the anchor seeds to 100 and
    never moves, and every direction is 0. *)
Example flat_scenario :
  option_map (fun a => (filt a, h_band a, l_band a, fdir a))
    (result_arrays (run mean_seq rf_flat))
  = Some (replicate 5 100%float, replicate 5 101%float, replicate 5 99%float,
          replicate 5 0%float).
Proof. vm_compute. reflexivity. Qed.

(** The spec's gap scenario: the anchor jumps to 109 and the direction
    flips to 1. *)
Example gap_scenario :
  option_map (fun a => (filt a, fdir a, upward a, downward a))
    (result_arrays (run mean_seq rf_gap))
  = Some ([100; 109]%float, [0; 1]%float, [0; 1]%float, [0; 0]%float).
Proof. vm_compute. reflexivity. Qed.

(** A quantized step: from anchor 100 with [r = 1] and [h = 105.5] the
    anchor moves by [floor(5.5)] whole ranges. *)
Example step_scenario :
  option_map filt (result_arrays (run mean_seq rf_step))
  = Some [100; 105]%float.
Proof. vm_compute. reflexivity. Qed.

(** [np.floor] on halves, integers, a large value and the special values. *)
Example np_floor_values :
  map np_floor [2.5; -2.5; 0.5; -0.5; 3; -3; 0x1p+60; infinity; nan]%float
  = [2; -3; 0; -1; 3; -3; 0x1p+60; infinity; nan]%float.
Proof. vm_compute. reflexivity. Qed.

(** With a period of -1 the weight [2 / (n + 1)] divides by zero: the one
    exception [run] raises on a frame of float columns. *)
Example period_minus_one_raises :
  run mean_seq
    (RangeFilter_init gap_frame "Type 1" "Wicks" 1 "Absolute" (-1) false 27 false 2)
  = Raise ZeroDivisionError.
Proof. vm_compute. reflexivity. Qed.

(** C1 on the flat scenario, bar 1: [h - r = 100 = anchor_prev = l + r]. *)
Lemma ratchet_containment_witness :
  (price_frame (data rf_flat) = true /\
   rng_per rf_flat <> (-1)%Z /\ smooth_per rf_flat <> (-1)%Z /\
   (1 < df_len (data rf_flat))%nat /\ f_type rf_flat = "Type 1") /\
  exists v a v' a' h l r,
    state_after mean_seq rf_flat 1 = Ok (v, a) /\
    state_after mean_seq rf_flat 2 = Ok (v', a') /\
    movement rf_flat 1 = Ok (h, l) /\
    effective_range mean_seq rf_flat 1 = Ok r /\
    ((h - r <=? rfilt_prev v)%float = true ->
     (rfilt_prev v <=? l + r)%float = true ->
     rfilt_prev v' = rfilt_prev v).
Proof.
  split.
  - repeat split; concrete.
  - apply (ratchet_containment mean_seq rf_flat 1); concrete.
Defined.

(** C2 on the step scenario, bar 1: the previous anchor is 100 (defined),
    [h = 105.5], [l = 104] and [r = 1], so [h >= anchor_prev + r] holds and
    the anchor moves by [floor(5.5)] whole ranges to 105. *)
Lemma quantized_ratchet_step_witness :
  (price_frame (data rf_step) = true /\
   rng_per rf_step <> (-1)%Z /\ smooth_per rf_step <> (-1)%Z /\
   (1 < df_len (data rf_step))%nat /\ f_type rf_step = "Type 2") /\
  exists v a v' a' h l r,
    state_after mean_seq rf_step 1 = Ok (v, a) /\
    state_after mean_seq rf_step 2 = Ok (v', a') /\
    movement rf_step 1 = Ok (h, l) /\
    effective_range mean_seq rf_step 1 = Ok r /\
    rfilt_prev v = 100%float /\ is_nan (rfilt_prev v) = false /\
    h = 105.5%float /\ l = 104%float /\ r = 1%float /\
    (rfilt_prev v + r <=? h)%float = true /\
    rfilt_prev v'
    = (rfilt_prev v + np_floor (PrimFloat.abs (h - rfilt_prev v) / r) * r)%float /\
    rfilt_prev v' = 105%float.
Proof.
  split.
  - repeat split; concrete.
  - destruct (quantized_ratchet_step mean_seq rf_step 1)
      as (v & a & v' & a' & h & l & r & H0 & H1 & Hm & Hr & Hstep & _);
      try concrete.
    exists v, a, v', a', h, l, r. repeat (split; [assumption|]).
    vm_compute in H0. injection H0 as <- <-.
    vm_compute in Hm. injection Hm as <- <-.
    vm_compute in Hr. injection Hr as <-.
    destruct (Hstep eq_refl) as (Hup & _ & _).
    specialize (Hup eq_refl).
    repeat (split; [reflexivity|]).
    split; [exact Hup|].
    rewrite Hup. reflexivity.
Defined.

(** C3 on the gap scenario, bar 1. *)
Lemma band_equations_witness :
  (price_frame (data rf_gap) = true /\
   rng_per rf_gap <> (-1)%Z /\ smooth_per rf_gap <> (-1)%Z /\
   (1 < df_len (data rf_gap))%nat) /\
  exists a df r f,
    run mean_seq rf_gap = Ok (a, df) /\
    effective_range mean_seq rf_gap 1 = Ok r /\
    filt a !! 1%nat = Some f /\
    h_band a !! 1%nat = Some (f + r)%float /\
    l_band a !! 1%nat = Some (f - r)%float.
Proof.
  split.
  - repeat split; concrete.
  - apply (band_equations mean_seq rf_gap 1); concrete.
Defined.

(** C3, the difference form: at price 1 with range 0.1 the bands are
    1.1000000000000001 and 0.9; the upper half-width rounds to
    0.10000000000000009 and the lower one to 0.099999999999999978, so the
    two differ. *)
Lemma band_symmetry_fails :
  result_arrays (run mean_seq rf_unit) ≫= (fun a => band_widths a 0)
  = Some (0x1.99999999999ap-4, 0x1.9999999999998p-4)%float /\
  (0x1.99999999999ap-4 =? 0x1.9999999999998p-4)%float = false.
Proof. split; vm_compute; reflexivity. Qed.

(** C4 on the gap scenario. *)
Lemma direction_classification_witness :
  (price_frame (data rf_gap) = true /\
   rng_per rf_gap <> (-1)%Z /\ smooth_per rf_gap <> (-1)%Z) /\
  exists a df,
    run mean_seq rf_gap = Ok (a, df) /\
    ((0 < df_len (data rf_gap))%nat -> fdir a !! 0%nat = Some 0%float) /\
    (forall i, (S i < df_len (data rf_gap))%nat ->
       exists fp fi d,
         filt a !! i = Some fp /\ filt a !! S i = Some fi /\
         fdir a !! S i = Some d /\
         ((fp <? fi)%float = true -> d = 1%float) /\
         ((fi <? fp)%float = true -> d = (-1)%float) /\
         ((fi =? fp)%float = true -> fdir a !! i = Some d)) /\
    (forall i, (i < df_len (data rf_gap))%nat ->
       exists d up dn,
         fdir a !! i = Some d /\ upward a !! i = Some up /\
         downward a !! i = Some dn /\ trit d /\
         (truthy up = true <-> d = 1%float) /\
         (truthy dn = true <-> d = (-1)%float)).
Proof.
  split.
  - repeat split; concrete.
  - apply (direction_classification mean_seq rf_gap); concrete.
Defined.

(** C5 on the gap scenario. *)
Lemma first_bar_seed_witness :
  (price_frame (data rf_gap) = true /\
   rng_per rf_gap <> (-1)%Z /\ smooth_per rf_gap <> (-1)%Z /\
   (0 < df_len (data rf_gap))%nat /\
   mov_src rf_gap = "Wicks" /\ av_vals rf_gap = false) /\
  exists a df h0 l0,
    run mean_seq rf_gap = Ok (a, df) /\
    float_cell (data rf_gap) "high" 0 = Some h0 /\
    float_cell (data rf_gap) "low" 0 = Some l0 /\
    filt a !! 0%nat = Some ((h0 + l0) / 2)%float /\
    fdir a !! 0%nat = Some 0%float.
Proof.
  split.
  - repeat split; concrete.
  - apply (first_bar_seed mean_seq rf_gap); concrete.
Defined.

(** C6 on the gap scenario with the scale 'Percent'. *)
Lemma unknown_scale_runs_as_absolute_witness :
  (price_frame (data rf_percent) = true /\
   rng_per rf_percent <> (-1)%Z /\ smooth_per rf_percent <> (-1)%Z) /\
  (exists a df, run mean_seq rf_percent = Ok (a, df)) /\
  (known_scale (rng_scale rf_percent) = false ->
   run mean_seq rf_percent = run mean_seq (with_scale rf_percent "Absolute") /\
   forall i pac patr psd,
     select_rng_size rf_percent i pac patr psd = Ok (rng_qty rf_percent)).
Proof.
  split.
  - repeat split; concrete.
  - apply (unknown_scale_runs_as_absolute mean_seq rf_percent); concrete.
Defined.

(** C6 as first stated: the scale 'Percent' is none of the eight names, and
    the run is not refused: it returns the arrays of the 'Absolute' run. *)
Lemma unknown_scale_accepted :
  known_scale (rng_scale rf_percent) = false /\
  is_ok (run mean_seq rf_percent) = true /\
  option_map (fun a => (filt a, h_band a, l_band a, fdir a))
    (result_arrays (run mean_seq rf_percent))
  = Some ([100; 109]%float, [101; 110]%float, [99; 108]%float, [0; 1]%float).
Proof. repeat split; vm_compute; reflexivity. Qed.

(** C7 on the frame whose second bar is NaN and infinite. *)
Lemma run_completes_on_any_bars_witness :
  (df_len (data rf_nan) = 0%nat \/
   (price_frame (data rf_nan) = true /\
    rng_per rf_nan <> (-1)%Z /\ smooth_per rf_nan <> (-1)%Z)) /\
  exists a df,
    run mean_seq rf_nan = Ok (a, df) /\ arrays_len (df_len (data rf_nan)) a /\
    df = append_results (data rf_nan) a.
Proof.
  assert (H : df_len (data rf_nan) = 0%nat \/
              (price_frame (data rf_nan) = true /\
               rng_per rf_nan <> (-1)%Z /\ smooth_per rf_nan <> (-1)%Z))
    by (right; repeat split; concrete).
  split; [exact H|].
  apply (run_completes_on_any_bars mean_seq rf_nan H).
Defined.

(** C7 as first stated: neither an empty frame nor a bar of NaN and infinite
    fields makes [run] raise: the first returns empty arrays, the second one entry per bar. *)
Lemma empty_and_nonfinite_inputs_accepted :
  df_len (data rf_empty) = 0%nat /\
  result_arrays (run mean_seq rf_empty) = Some (init_arrays 0) /\
  price_bar (data rf_nan) 1
  = Some {| bar_open := nan; bar_high := nan; bar_low := 100;
            bar_close := infinity |} /\
  option_map (fun a => (filt a, h_band a, l_band a, fdir a))
    (result_arrays (run mean_seq rf_nan))
  = Some ([100; 100]%float, [101; 101]%float, [99; 99]%float, [0; 0]%float).
Proof. repeat split; vm_compute; reflexivity. Qed.


(** The windows of [rf_avg] after three bars are full (capacity 2), and the
    fourth bar drops the oldest entry of each. *)
Example windows_slide :
  (v ← state_after mean_seq rf_avg 3;
   w ← state_after mean_seq rf_avg 4;
   Ok (sd_list v.1, sd_list w.1, filt_change_values v.1,
       filt_change_values w.1, filt_change_count w.1))
  = Ok ([102; 104]%float, [104; 106]%float, [102; 104]%float,
        [104; 106]%float, 4%Z).
Proof. vm_compute. reflexivity. Qed.

(** C10 on the averaging scenario, bar 2. *)
Lemma seed_counts_as_change_witness :
  (price_frame (data rf_avg) = true /\
   rng_per rf_avg <> (-1)%Z /\ smooth_per rf_avg <> (-1)%Z /\
   av_vals rf_avg = true /\ (0 < av_samples rf_avg)%Z /\
   (2 < df_len (data rf_avg))%nat) /\
  exists a df v' a' v1 a1 h0 l0,
    run mean_seq rf_avg = Ok (a, df) /\
    state_after mean_seq rf_avg 3 = Ok (v', a') /\
    filt_change_values v' <> [] /\
    filt a !! 2%nat = Some (mean_seq (filt_change_values v')) /\
    state_after mean_seq rf_avg 1 = Ok (v1, a1) /\
    movement rf_avg 0 = Ok (h0, l0) /\
    filt_change_values v1 = [((h0 + l0) / 2)%float] /\
    filt_change_count v1 = 1%Z.
Proof.
  split.
  - repeat split; concrete.
  - apply (seed_counts_as_change mean_seq rf_avg 2); concrete.
Defined.

(** With averaging over two changes the emitted values are the means of the
    last two anchors: 100, (100+102)/2, (102+104)/2, (104+106)/2. *)
Example averaged_scenario :
  option_map filt (result_arrays (run mean_seq rf_avg))
  = Some [100; 101; 103; 105]%float.
Proof. vm_compute. reflexivity. Qed.

(** * Further properties of the code *)

(** ** More on float64 comparisons *)

Module FloatFacts.

Lemma ltb_irrefl (a : float) : (a <? a)%float = false.
Proof.
  rewrite FloatAxioms.ltb_spec. unfold SFltb.
  destruct (Prim2SF a) eqn:E;
    try (rewrite FloatOrder.SFcompare_refl by discriminate; reflexivity).
  reflexivity.
Qed.

(** Only numbers compare: both sides of a true [<] are not NaN. *)
Lemma ltb_not_nan (a b : float) :
  (a <? b)%float = true -> is_nan a = false /\ is_nan b = false.
Proof.
  unfold is_nan. rewrite FloatAxioms.ltb_spec, !FloatAxioms.eqb_spec.
  unfold SFltb, SFeqb. intros H.
  destruct (Prim2SF a) eqn:Ea, (Prim2SF b) eqn:Eb; try discriminate H;
    rewrite !FloatOrder.SFcompare_refl by discriminate; auto.
Qed.

Lemma eqb_refl (a : float) : is_nan a = false -> (a =? a)%float = true.
Proof. unfold is_nan. destruct (a =? a)%float; [reflexivity | discriminate]. Qed.

End FloatFacts.

Section More.

Variable np_mean : list float -> float.

(** ** The constructor and the frame after a run *)

(** [__init__] resets the row labels to 0 .. n-1 and nothing else: the
    length, the columns and the readability of the frame are kept, the
    configuration is stored as given, and resetting twice is resetting
    once. *)
Theorem init_resets_labels_only d ft ms qty scale per smooth sper av avn :
  let self := RangeFilter_init d ft ms qty scale per smooth sper av avn in
  df_index (get_data self) = map Z.of_nat (seq 0 (df_len d)) /\
  df_len (get_data self) = df_len d /\
  df_columns (get_data self) = df_columns d /\
  price_frame (get_data self) = price_frame d /\
  reset_index (get_data self) = get_data self /\
  (f_type self, mov_src self, rng_qty self, rng_scale self, rng_per self,
   smooth_range self, smooth_per self, av_vals self, av_samples self)
  = (ft, ms, qty, scale, per, smooth, sper, av, avn).
Proof.
  intros self.
  assert (L : df_len (reset_index d) = df_len d).
  { unfold df_len, reset_index. simpl. rewrite length_map, length_seq. reflexivity. }
  repeat split; try reflexivity; try exact L.
  - unfold price_frame, float_column. simpl. fold (df_len (reset_index d)).
    rewrite L. reflexivity.
  - unfold get_data. simpl. unfold reset_index at 1. simpl.
    fold (df_len (reset_index d)). rewrite L. reflexivity.
Qed.

Lemma append_results_columns df a :
  df_columns (append_results df a) !! "filt" = Some (FloatCol (filt a)) /\
  df_columns (append_results df a) !! "h_band" = Some (FloatCol (h_band a)) /\
  df_columns (append_results df a) !! "l_band" = Some (FloatCol (l_band a)) /\
  df_columns (append_results df a) !! "fdir" = Some (FloatCol (fdir a)) /\
  df_columns (append_results df a) !! "upward" = Some (FloatCol (upward a)) /\
  df_columns (append_results df a) !! "downward" = Some (FloatCol (downward a)) /\
  df_columns (append_results df a) !! "filt_color" = Some (ObjCol (filt_color a)) /\
  df_columns (append_results df a) !! "bar_color" = Some (ObjCol (bar_color a)) /\
  df_columns (append_results df a) !! "external_trend_output"
  = Some (FloatCol (external_trend_output a)).
Proof.
  unfold append_results, setitem. simpl.
  repeat split;
    repeat (first [ apply lookup_insert_eq
                  | rewrite lookup_insert_ne by discriminate ]).
Qed.

(** X3. After a run that returned, [get_data] gives the caller's frame with
    the nine result columns assigned, each holding its array with one entry
    per row; the row labels are as before, and so is every column that is
    not one of the nine names. *)
Theorem run_assigns_result_columns self a df :
  run np_mean self = Ok (a, df) ->
  get_data (with_data self (data_after np_mean self)) = df /\
  df_index df = df_index (data self) /\
  arrays_len (df_len df) a /\
  df_columns df !! "filt" = Some (FloatCol (filt a)) /\
  df_columns df !! "h_band" = Some (FloatCol (h_band a)) /\
  df_columns df !! "l_band" = Some (FloatCol (l_band a)) /\
  df_columns df !! "fdir" = Some (FloatCol (fdir a)) /\
  df_columns df !! "upward" = Some (FloatCol (upward a)) /\
  df_columns df !! "downward" = Some (FloatCol (downward a)) /\
  df_columns df !! "filt_color" = Some (ObjCol (filt_color a)) /\
  df_columns df !! "bar_color" = Some (ObjCol (bar_color a)) /\
  df_columns df !! "external_trend_output"
  = Some (FloatCol (external_trend_output a)) /\
  forall c, c ∉ result_columns ->
    df_columns df !! c = df_columns (data self) !! c.
Proof.
  intros H. pose proof H as H'. apply run_Ok in H' as [[v Hst] ->].
  split; [unfold get_data, data_after; simpl; rewrite H; reflexivity|].
  split; [reflexivity|].
  split; [apply (state_after_len _ _ _ _ _ Hst)|].
  destruct (append_results_columns (data self) a)
    as (C1 & C2 & C3 & C4 & C5 & C6 & C7 & C8 & C9).
  repeat (split; [assumption|]).
  intros c Hc. unfold result_columns in Hc.
  apply append_results_other; intros ->; apply Hc; set_solver.
Qed.

(** The states of all earlier bars of a run that returned. *)
Lemma run_bar self a df i :
  run np_mean self = Ok (a, df) -> (i < df_len (data self))%nat ->
  exists v0 a0 v1 a1,
    state_after np_mean self i = Ok (v0, a0) /\
    state_after np_mean self (S i) = Ok (v1, a1) /\
    arrays_at i a = arrays_at i a1.
Proof.
  intros H Hi. pose proof H as H'. apply run_Ok in H' as [[v Hst] _].
  destruct (state_after_le _ _ (S i) _ _ Hst) as [[v1 a1] H1]; [lia|].
  destruct (state_after_step _ _ _ _ _ H1) as (v0 & a0 & H0 & _).
  exists v0, a0, v1, a1. repeat (split; [assumption|]).
  eapply run_row; eassumption.
Qed.

(** X4. The external trend signal is the direction array itself, entry for
    entry. *)
Theorem external_trend_output_is_fdir self a df :
  run np_mean self = Ok (a, df) ->
  external_trend_output a = fdir a /\
  df_columns df !! "external_trend_output" = df_columns df !! "fdir".
Proof.
  intros H.
  assert (E : external_trend_output a = fdir a).
  { pose proof H as H'. apply run_Ok in H' as [[v Hst] _].
    destruct (state_after_len _ _ _ _ _ Hst) as [(_ & _ & _ & L4 & _ & _ & _ & _ & L9) _].
    apply list_eq. intros i.
    destruct (decide (i < df_len (data self))%nat) as [Hi|Hi].
    - destruct (run_bar _ _ _ _ H Hi) as (v0 & a0 & v1 & a1 & H0 & H1 & R).
      destruct (bar_direction _ _ _ _ _ _ _ H0 H1) as (d & _ & Ed & _ & _ & Ee).
      unfold arrays_at in R. injection R as _ _ _ R4 _ _ _ _ R9. congruence.
    - rewrite !lookup_ge_None_2 by lia. reflexivity. }
  split; [exact E|].
  apply run_Ok in H as [_ ->].
  destruct (append_results_columns (data self) a) as (_ & _ & _ & C4 & _ & _ & _ & _ & C9).
  rewrite C4, C9, E. reflexivity.
Qed.

(** ** Colours *)

Lemma bar_shade_inv self j up s1 s2 b :
  bar_shade self (S j) up s1 s2 = Ok b ->
  exists c cp,
    float_cell (data self) "close" (S j) = Some c /\
    float_cell (data self) "close" j = Some cp /\
    b = if (if up then cp <? c else c <? cp)%float then s1 else s2.
Proof.
  unfold bar_shade. intros H. ok_inv H Ec. ok_inv H Ep.
  rename r into c, r0 into cp. exists c, cp.
  apply iloc_float_cell in Ec, Ep. repeat (split; [assumption|]).
  destruct (if up then _ else _); congruence.
Qed.

(** The colours iteration [i] writes, with what it based them on. *)
Lemma bar_colors self i v a v' a' :
  state_after np_mean self i = Ok (v, a) ->
  state_after np_mean self (S i) = Ok (v', a') ->
  exists d fc bc,
    fdir a' !! i = Some d /\
    upward a' !! i = Some (if (d =? 1)%float then 1 else 0)%float /\
    downward a' !! i = Some (if (d =? -1)%float then 1 else 0)%float /\
    trend_colors self i (filt a') (upward a') (downward a') = Ok (fc, bc) /\
    filt_color a' !! i = Some fc /\ bar_color a' !! i = Some bc.
Proof.
  intros H0 H1. rewrite state_after_S, H0 in H1. cbn in H1.
  apply loop_body_inv in H1.
  destruct H1 as [h l rs hb lb f d fc bc _ _ _ Hbd _ _ _ _ Ed Eu Edn Hc Efc Ebc _].
  destruct Hbd as (_ & _ & _ & B4 & B5 & B6 & B7 & B8 & _).
  exists d, fc, bc.
  rewrite Ed, Efc, Ebc, !list_lookup_insert_eq by assumption.
  repeat (split; [reflexivity|]).
  split; [rewrite Eu; apply list_lookup_insert_eq; assumption|].
  split; [rewrite Edn; apply list_lookup_insert_eq; assumption|].
  auto.
Qed.

Lemma trend_colors_flat self i (fl up dn : list float) p :
  up !! i = Some 0%float -> dn !! i = Some 0%float ->
  trend_colors self i fl up dn = Ok p -> p = ("gray", "gray").
Proof.
  intros Hu Hd. apply getidx_Ok in Hu, Hd. unfold trend_colors.
  rewrite Hu, bind_Ok_l. change (truthy 0) with false. cbv iota.
  rewrite Hd, bind_Ok_l. change (truthy 0) with false. cbv iota. congruence.
Qed.

Lemma trend_colors_up self i (fl up dn : list float) p :
  up !! i = Some 1%float ->
  trend_colors self i fl up dn = Ok p ->
  exists c f,
    float_cell (data self) "close" i = Some c /\ fl !! i = Some f /\
    p.1 = "#05ff9b" /\
    if (f <? c)%float
    then bar_shade self i true "#05ff9b" "#00b36b" = Ok p.2
    else p.2 = "gray".
Proof.
  intros Hu. apply getidx_Ok in Hu. unfold trend_colors.
  rewrite Hu, bind_Ok_l. change (truthy 1) with true. cbv iota.
  intros H. ok_inv H Ec. ok_inv H Ef. ok_inv H Eb. injection H as <-.
  rename r into c, r0 into f, r1 into b. exists c, f.
  apply iloc_float_cell in Ec. apply getidx_Ok in Ef.
  repeat (split; [assumption || reflexivity|]).
  simpl. destruct (f <? c)%float; congruence.
Qed.

Lemma trend_colors_down self i (fl up dn : list float) p :
  up !! i = Some 0%float -> dn !! i = Some 1%float ->
  trend_colors self i fl up dn = Ok p ->
  exists c f,
    float_cell (data self) "close" i = Some c /\ fl !! i = Some f /\
    p.1 = "#ff0583" /\
    if (c <? f)%float
    then bar_shade self i false "#ff0583" "#b8005d" = Ok p.2
    else p.2 = "gray".
Proof.
  intros Hu Hd. apply getidx_Ok in Hu, Hd. unfold trend_colors.
  rewrite Hu, bind_Ok_l. change (truthy 0) with false. cbv iota.
  rewrite Hd, bind_Ok_l. change (truthy 1) with true. cbv iota.
  intros H. ok_inv H Ec. ok_inv H Ef. ok_inv H Eb. injection H as <-.
  rename r into c, r0 into f, r1 into b. exists c, f.
  apply iloc_float_cell in Ec. apply getidx_Ok in Ef.
  repeat (split; [assumption || reflexivity|]).
  simpl. destruct (c <? f)%float; congruence.
Qed.

(** X5. The colours follow the direction.  On a bar of direction 0 both
    colours are gray.  On a bar of direction 1 the line is bright green and
    the bar is gray unless the close is above the filter, and then bright
    green if the close also rose from the previous bar and dark green
    otherwise; direction -1 is the mirror image in red. *)
Theorem colors_follow_direction self a df i d :
  run np_mean self = Ok (a, df) -> fdir a !! i = Some d ->
  exists fc bc,
    filt_color a !! i = Some fc /\ bar_color a !! i = Some bc /\
    (d = 0%float -> fc = "gray" /\ bc = "gray") /\
    (d = 1%float ->
       fc = "#05ff9b" /\
       exists c f,
         float_cell (data self) "close" i = Some c /\ filt a !! i = Some f /\
         ((f <? c)%float = false -> bc = "gray") /\
         ((f <? c)%float = true ->
          exists j cp, i = S j /\
            float_cell (data self) "close" j = Some cp /\
            bc = if (cp <? c)%float then "#05ff9b" else "#00b36b")) /\
    (d = (-1)%float ->
       fc = "#ff0583" /\
       exists c f,
         float_cell (data self) "close" i = Some c /\ filt a !! i = Some f /\
         ((c <? f)%float = false -> bc = "gray") /\
         ((c <? f)%float = true ->
          exists j cp, i = S j /\
            float_cell (data self) "close" j = Some cp /\
            bc = if (c <? cp)%float then "#ff0583" else "#b8005d")).
Proof.
  intros H Hd.
  assert (Hi : (i < df_len (data self))%nat).
  { pose proof H as H'. apply run_Ok in H' as [[v Hst] _].
    destruct (state_after_len _ _ _ _ _ Hst) as [(_ & _ & _ & L4 & _) _].
    apply lookup_lt_Some in Hd. lia. }
  destruct (run_bar _ _ _ _ H Hi) as (v0 & a0 & v1 & a1 & H0 & H1 & R).
  destruct (bar_colors _ _ _ _ _ _ H0 H1)
    as (d' & fc & bc & Ed & Eu & Edn & Hc & Efc & Ebc).
  destruct (bar_direction _ _ _ _ _ _ _ H0 H1) as (d0 & Hdir & Ed0 & _).
  unfold arrays_at in R. injection R as R1 _ _ R4 _ _ R7 R8 _.
  assert (d' = d) as -> by congruence.
  assert (d0 = d) as -> by congruence.
  exists fc, bc. rewrite R1, R7, R8. repeat (split; [assumption|]).
  assert (Z : d = 1%float \/ d = (-1)%float -> exists j, i = S j).
  { intros Hd1. destruct i as [|j]; [|eauto].
    apply direction_inv in Hdir. subst d.
    destruct Hd1 as [E|E]; apply (f_equal (fun x => (x =? 0)%float)) in E;
      vm_compute in E; discriminate. }
  split; [|split].
  - intros ->.
    apply (trend_colors_flat _ _ _ _ _ _ Eu Edn) in Hc. injection Hc as -> ->. auto.
  - intros ->. destruct Z as [j ->]; [auto|].
    destruct (trend_colors_up _ _ _ _ _ _ Eu Hc) as (c & f & Ec & Ef & Efc' & Hb).
    simpl in Efc', Hb. split; [assumption|].
    exists c, f. repeat (split; [assumption|]).
    destruct (f <? c)%float; split; try discriminate; intros _; [|assumption].
    destruct (bar_shade_inv _ _ _ _ _ _ Hb) as (c' & cp & Ec' & Ecp & ->).
    assert (c' = c) as -> by congruence.
    exists j, cp. auto.
  - intros ->. destruct Z as [j ->]; [auto|].
    destruct (trend_colors_down _ _ _ _ _ _ Eu Edn Hc)
      as (c & f & Ec & Ef & Efc' & Hb).
    simpl in Efc', Hb. split; [assumption|].
    exists c, f. repeat (split; [assumption|]).
    destruct (c <? f)%float; split; try discriminate; intros _; [|assumption].
    destruct (bar_shade_inv _ _ _ _ _ _ Hb) as (c' & cp & Ec' & Ecp & ->).
    assert (c' = c) as -> by congruence.
    exists j, cp. auto.
Qed.

(** ** Exceptions *)

Lemma state_after_first_raises self e n :
  loop_body np_mean self 0 (init_vars, init_arrays (df_len (data self))) = Raise e ->
  state_after np_mean self (S n) = Raise e.
Proof.
  intros H. unfold state_after. change (seq 0 (S n)) with (0%nat :: seq 1 n).
  cbn [for_each]. rewrite H. reflexivity.
Qed.

Lemma run_first_raises self e :
  (0 < df_len (data self))%nat ->
  loop_body np_mean self 0 (init_vars, init_arrays (df_len (data self))) = Raise e ->
  run np_mean self = Raise e.
Proof.
  intros Hn H. unfold run.
  destruct (df_len (data self)) as [|n] eqn:E; [lia|].
  rewrite <- E in H |- *. rewrite E at 1.
  rewrite (state_after_first_raises _ _ _ H). reflexivity.
Qed.

Lemma Cond_EMA_minus_one x c p : Cond_EMA x c (-1) p = Raise ZeroDivisionError.
Proof. reflexivity. Qed.

(** X1. On a frame with float [high], [low] and [close] columns, [run]
    returns unless the frame is non-empty and [rng_per] or [smooth_per] is
    -1; in that case it raises [ZeroDivisionError] (from the weight
    [2 / (n + 1)] on the first bar).  It raises nothing else. *)
Theorem run_raises_only_on_period_minus_one self :
  price_frame (data self) = true ->
  (is_ok (run np_mean self) = true <->
   df_len (data self) = 0%nat \/
   (rng_per self <> (-1)%Z /\ smooth_per self <> (-1)%Z)) /\
  (forall e, run np_mean self = Raise e -> e = ZeroDivisionError).
Proof.
  intros Hf.
  destruct (decide (df_len (data self) = 0%nat)) as [E0|E0].
  { rewrite (run_empty _ _ E0). split; [split; auto | discriminate]. }
  destruct (decide (rng_per self = (-1)%Z)) as [E1|E1].
  { assert (R : run np_mean self = Raise ZeroDivisionError).
    { apply run_first_raises; [lia|]. unfold loop_body.
      destruct (movement_total self 0 Hf) as (h & l & ->); [lia|]. cbn.
      unfold rng_size. rewrite E1.
      unfold price_frame in Hf. apply andb_prop in Hf as [Hf Hc].
      apply andb_prop in Hf as [Hh Hl].
      destruct (iloc_total _ _ 0 Hh) as [hi ->]; [lia|].
      destruct (iloc_total _ _ 0 Hl) as [lo ->]; [lia|].
      reflexivity. }
    rewrite R. split; [split; [discriminate | intros [?|[? _]]; congruence] | congruence]. }
  destruct (decide (smooth_per self = (-1)%Z)) as [E2|E2].
  { assert (R : run np_mean self = Raise ZeroDivisionError).
    { apply run_first_raises; [lia|]. unfold loop_body.
      destruct (movement_total self 0 Hf) as (h & l & ->); [lia|].
      rewrite bind_Ok_l. cbv beta iota zeta.
      match goal with |- context [rng_size ?m ?s ?x ?i ?a ?b ?c ?d ?e] =>
        destruct (rng_size_total m s x i a b c d e Hf)
          as [[[[[[rs pac] patr] psd] acl] sdl] ->]; [lia | assumption |] end.
      rewrite bind_Ok_l. cbv beta iota zeta.
      unfold rng_filt. rewrite E2. reflexivity. }
    rewrite R. split; [split; [discriminate | intros [?|[_ ?]]; congruence] | congruence]. }
  destruct (run_total np_mean self Hf E1 E2) as (v & a & _ & R).
  rewrite R. split; [split; auto | discriminate].
Qed.

(** X2. A non-empty frame without one of the columns the loop reads makes
    [run] raise [KeyError] for that column on the first bar: [high] when it
    is missing (the movement source being 'Wicks', or [close] being
    readable); [close] when it is missing and the movement source is not
    'Wicks'. *)
Theorem missing_column_raises_KeyError self :
  (0 < df_len (data self))%nat ->
  (df_columns (data self) !! "high" = None ->
   mov_src self = "Wicks" \/ float_column (data self) "close" = true ->
   run np_mean self = Raise (KeyError "high")) /\
  (df_columns (data self) !! "close" = None ->
   mov_src self <> "Wicks" ->
   run np_mean self = Raise (KeyError "close")).
Proof.
  intros Hn. split.
  - intros Hh Hsrc. apply run_first_raises; [assumption|].
    unfold loop_body, movement.
    assert (Eh : iloc (data self) "high" 0 = Raise (KeyError "high"))
      by (unfold iloc; rewrite Hh; reflexivity).
    destruct (String.eqb_spec (mov_src self) "Wicks") as [E|E].
    + rewrite Eh. reflexivity.
    + destruct Hsrc as [?|Hc]; [contradiction|].
      destruct (iloc_total _ _ 0 Hc Hn) as [c ->]. cbn.
      unfold rng_size. rewrite Eh. reflexivity.
  - intros Hc Hsrc. apply run_first_raises; [assumption|].
    unfold loop_body, movement.
    destruct (String.eqb_spec (mov_src self) "Wicks") as [E|E]; [contradiction|].
    unfold iloc. rewrite Hc. reflexivity.
Qed.

(** ** What an iteration reads *)

(** The loop reads the frame only through [high], [low] and [close], at the
    current and the previous row.  [reads_agree d1 d2 i] says two frames
    answer these reads of iteration [i] alike. *)
Definition reads_agree (d1 d2 : DataFrame) (i : nat) : Prop :=
  forall c j, c = "high" \/ c = "low" \/ c = "close" -> j = i \/ S j = i ->
    iloc d2 c j = iloc d1 c j.

Lemma movement_reads self d2 i :
  reads_agree (data self) d2 i ->
  movement (with_data self d2) i = movement self i.
Proof.
  intros R. unfold movement. simpl.
  rewrite !(R _ i) by auto. reflexivity.
Qed.

Lemma select_rng_size_reads self d2 i pac patr psd :
  reads_agree (data self) d2 i ->
  select_rng_size (with_data self d2) i pac patr psd
  = select_rng_size self i pac patr psd.
Proof.
  intros R. unfold select_rng_size. simpl.
  rewrite !(R _ i) by auto. reflexivity.
Qed.

Lemma rng_size_reads self d2 x i pac patr psd acl sdl :
  reads_agree (data self) d2 i ->
  rng_size np_mean (with_data self d2) x i pac patr psd acl sdl
  = rng_size np_mean self x i pac patr psd acl sdl.
Proof.
  intros R. unfold rng_size.
  change (rng_per (with_data self d2)) with (rng_per self).
  change (data (with_data self d2)) with d2.
  destruct i as [|j].
  - rewrite !(R _ 0%nat) by auto.
    repeat match goal with
           | |- ?m ≫= _ = ?m ≫= _ => destruct m; cbn; [|reflexivity]
           end.
    rewrite (select_rng_size_reads _ _ _ _ _ _ R). reflexivity.
  - rewrite !(R _ (S j)), !(R _ j) by auto.
    repeat match goal with
           | |- ?m ≫= _ = ?m ≫= _ => destruct m; cbn; [|reflexivity]
           end.
    rewrite (select_rng_size_reads _ _ _ _ _ _ R). reflexivity.
Qed.

Lemma rng_filt_with_data self d2 h l rs i rp ps cnt vals :
  rng_filt np_mean (with_data self d2) h l rs i rp ps cnt vals
  = rng_filt np_mean self h l rs i rp ps cnt vals.
Proof. reflexivity. Qed.

Lemma bar_shade_reads self d2 i up s1 s2 :
  reads_agree (data self) d2 i ->
  bar_shade (with_data self d2) i up s1 s2 = bar_shade self i up s1 s2.
Proof.
  intros R. unfold bar_shade. simpl. destruct i as [|j].
  - rewrite !(R _ 0%nat) by auto. reflexivity.
  - rewrite !(R _ (S j)), !(R _ j) by auto. reflexivity.
Qed.

Lemma getidx_ext {A} (xs ys : list A) i :
  xs !! i = ys !! i -> getidx xs i = getidx ys i.
Proof. unfold getidx. intros ->. reflexivity. Qed.

Lemma trend_colors_reads self d2 i (fl fl' up up' dn dn' : list float) :
  reads_agree (data self) d2 i ->
  fl' !! i = fl !! i -> up' !! i = up !! i -> dn' !! i = dn !! i ->
  trend_colors (with_data self d2) i fl' up' dn' = trend_colors self i fl up dn.
Proof.
  intros R Ef Eu Ed. unfold trend_colors.
  rewrite (getidx_ext _ _ _ Ef), (getidx_ext _ _ _ Eu), (getidx_ext _ _ _ Ed).
  rewrite !(bar_shade_reads _ _ _ _ _ _ R).
  change (data (with_data self d2)) with d2.
  rewrite !(R _ i) by auto. reflexivity.
Qed.

Lemma direction_ext i (fl fl' fd fd' : list float) :
  fl' !! i = fl !! i ->
  (forall j, i = S j -> fl' !! j = fl !! j /\ fd' !! j = fd !! j) ->
  direction i fl' fd' = direction i fl fd.
Proof.
  intros Ei Ej. destruct i as [|j]; [reflexivity|]. simpl.
  destruct (Ej j eq_refl) as [E1 E2].
  rewrite (getidx_ext _ _ _ Ei), (getidx_ext _ _ _ E1), (getidx_ext _ _ _ E2).
  reflexivity.
Qed.

Lemma getidx_insert_eq {A} (xs : list A) i v :
  (i < length xs)%nat -> getidx (<[i := v]> xs) i = Ok v.
Proof. intros H. apply getidx_Ok. apply list_lookup_insert_eq. assumption. Qed.

(** One iteration on the first [k] entries of the arrays, over a frame that
    answers its reads alike, does what the iteration on the whole arrays
    does, cut to [k] entries. *)
Lemma loop_body_take self d2 n k i v a :
  reads_agree (data self) d2 i ->
  (i < k)%nat -> (k <= n)%nat -> arrays_len n a ->
  loop_body np_mean (with_data self d2) i (v, take_arrays k a)
  = '(v', a') ← loop_body np_mean self i (v, a); Ok (v', take_arrays k a').
Proof.
  intros R Hi Hk (L1 & L2 & L3 & L4 & L5 & L6 & L7 & L8 & L9).
  unfold loop_body. rewrite (movement_reads _ _ _ R).
  destruct (movement self i) as [[h l]|e]; [|reflexivity]. cbn.
  rewrite (rng_size_reads _ _ _ _ _ _ _ _ _ R).
  match goal with |- context [rng_size ?m ?s ?x ?j ?b ?c ?d ?e ?f] =>
    destruct (rng_size m s x j b c d e f)
      as [[[[[[rs pac] patr] psd] acl] sdl]|e0]; [|reflexivity] end.
  cbn. rewrite rng_filt_with_data.
  match goal with |- context [rng_filt ?m ?s ?x ?y ?z ?j ?b ?c ?d ?e] =>
    destruct (rng_filt m s x y z j b c d e)
      as [[[[[[[hb lb] f] rp] ps] cnt] vals]|e0]; [|reflexivity] end.
  cbn.
  assert (T : forall (A : Type) (xs : list A) m, (k <= m)%nat ->
            length xs = m -> (i < length (take k xs))%nat /\ (i < length xs)%nat).
  { intros A xs m Hm E. rewrite length_take. lia. }
  pose proof (T _ _ _ Hk L1) as [? ?]. pose proof (T _ _ _ Hk L2) as [? ?].
  pose proof (T _ _ _ Hk L3) as [? ?]. pose proof (T _ _ _ Hk L4) as [? ?].
  pose proof (T _ _ _ Hk L5) as [? ?]. pose proof (T _ _ _ Hk L6) as [? ?].
  pose proof (T _ _ _ Hk L7) as [? ?]. pose proof (T _ _ _ Hk L8) as [? ?].
  pose proof (T _ _ _ Hk L9) as [? ?].
  repeat (first [ rewrite setidx_lt by assumption
                | rewrite getidx_insert_eq by assumption ]; cbn).
  rewrite (direction_ext i (<[i:=f]> (filt a)) (<[i:=f]> (take k (filt a)))
             (fdir a) (take k (fdir a))).
  2:{ rewrite !list_lookup_insert_eq by assumption. reflexivity. }
  2:{ intros j ->. rewrite !list_lookup_insert_ne by lia.
      rewrite !lookup_take_lt by lia. auto. }
  destruct (direction i (<[i:=f]> (filt a)) (fdir a)) as [d|e0]; [|reflexivity].
  cbn.
  repeat (first [ rewrite setidx_lt by assumption
                | rewrite getidx_insert_eq by assumption ]; cbn).
  match goal with
  | |- context [trend_colors self i ?fl ?up ?dn] =>
      match goal with
      | |- context [trend_colors (with_data self d2) i ?fl' ?up' ?dn'] =>
          rewrite (trend_colors_reads self d2 i fl fl' up up' dn dn' R)
      end
  end.
  2,3,4: rewrite !list_lookup_insert_eq by assumption; reflexivity.
  match goal with |- context [trend_colors ?s ?j ?fl ?up ?dn] =>
    destruct (trend_colors s j fl up dn) as [[fc bc]|e0]; [|reflexivity] end.
  cbn.
  repeat (first [ rewrite setidx_lt by assumption
                | rewrite getidx_insert_eq by assumption ]; cbn).
  unfold take_arrays. simpl. rewrite !take_insert_lt by lia. reflexivity.
Qed.

(** ** No look-ahead, and running twice *)

Lemma init_arrays_take k n :
  (k <= n)%nat -> take_arrays k (init_arrays n) = init_arrays k.
Proof.
  intros H. unfold take_arrays, init_arrays. simpl.
  rewrite !take_replicate, Nat.min_l by assumption. reflexivity.
Qed.

Lemma take_arrays_all n a : arrays_len n a -> take_arrays n a = a.
Proof.
  intros (L1 & L2 & L3 & L4 & L5 & L6 & L7 & L8 & L9).
  destruct a. unfold take_arrays. simpl in *.
  rewrite !take_ge by lia. reflexivity.
Qed.

(** The loop over a frame [d2] of [k] rows that answers the reads of the
    first [k] iterations as the object's own frame does. *)
Lemma state_after_take self d2 k j :
  (forall i, (i < k)%nat -> reads_agree (data self) d2 i) ->
  df_len d2 = k -> (k <= df_len (data self))%nat -> (j <= k)%nat ->
  state_after np_mean (with_data self d2) j
  = '(v, a) ← state_after np_mean self j; Ok (v, take_arrays k a).
Proof.
  intros R Hlen Hk. induction j as [|j IH]; intros Hj.
  - unfold state_after. simpl. rewrite Hlen, init_arrays_take by assumption.
    reflexivity.
  - rewrite !state_after_S, IH by lia.
    destruct (state_after np_mean self j) as [[v a]|e] eqn:E; [|reflexivity].
    cbn. eapply loop_body_take; [apply R; lia | lia | eassumption |].
    apply (state_after_len _ _ _ _ _ E).
Qed.

(** Rows already written are final: row [i] after [k > i] iterations is row
    [i] of the arrays [run] returns. *)
Lemma rows_final self a df k vk ak i :
  run np_mean self = Ok (a, df) ->
  state_after np_mean self k = Ok (vk, ak) -> (i < k)%nat ->
  arrays_at i ak = arrays_at i a.
Proof.
  intros H Hk Hi.
  destruct (state_after_le _ _ (S i) _ _ Hk) as [[v1 a1] H1]; [lia|].
  rewrite (state_after_stable _ _ _ _ _ _ _ _ H1 Hk Hi).
  symmetry. eapply run_row; eassumption.
Qed.

Lemma take_arrays_rows k a b :
  (forall i, (i < k)%nat -> arrays_at i a = arrays_at i b) ->
  take_arrays k a = take_arrays k b.
Proof.
  intros H.
  assert (T : forall (A : Type) (xs ys : list A),
            (forall i, (i < k)%nat -> xs !! i = ys !! i) -> take k xs = take k ys).
  { intros A xs ys E. apply list_eq. intros i.
    destruct (decide (i < k)%nat).
    - rewrite !lookup_take_lt by assumption. auto.
    - rewrite !lookup_take_ge by lia. reflexivity. }
  unfold take_arrays. f_equal; apply T; intros i Hi;
    specialize (H i Hi); unfold arrays_at in H; congruence.
Qed.

Lemma df_head_reads d k i : (i < k)%nat -> reads_agree d (df_head k d) i.
Proof.
  intros Hi c j _ Hj. unfold iloc, df_head. simpl. rewrite lookup_fmap.
  destruct (df_columns d !! c) as [[xs|xs]|]; simpl; try reflexivity.
  rewrite lookup_take_lt by lia. reflexivity.
Qed.

(** X6. No look-ahead: running the same configuration on the first [k] rows
    of the frame returns exactly the first [k] entries of every result array
    of the full run (no entry depends on a later bar). *)
Theorem run_on_first_rows self a df k :
  run np_mean self = Ok (a, df) -> (k <= df_len (data self))%nat ->
  run np_mean (with_data self (df_head k (data self)))
  = Ok (take_arrays k a,
        append_results (df_head k (data self)) (take_arrays k a)).
Proof.
  intros H Hk.
  assert (Hlen : df_len (df_head k (data self)) = k).
  { unfold df_len, df_head. simpl. apply length_take_le. exact Hk. }
  pose proof H as H'. apply run_Ok in H' as [[v Hst] _].
  destruct (state_after_le _ _ k _ _ Hst Hk) as [[vk ak] Hsk].
  unfold run. change (data (with_data self (df_head k (data self))))
    with (df_head k (data self)).
  rewrite Hlen.
  rewrite (state_after_take self (df_head k (data self)) k k);
    [| intros i Hi; apply df_head_reads; assumption | assumption | assumption | lia].
  rewrite Hsk. cbn.
  rewrite (take_arrays_rows k ak a); [reflexivity|].
  intros i Hi. eapply rows_final; eassumption.
Qed.

Lemma DataFrame_eq (x y : DataFrame) :
  df_index x = df_index y -> df_columns x = df_columns y -> x = y.
Proof. destruct x, y. simpl. congruence. Qed.

Lemma append_results_idem d a :
  append_results (append_results d a) a = append_results d a.
Proof.
  destruct (append_results_columns d a)
    as (C1 & C2 & C3 & C4 & C5 & C6 & C7 & C8 & C9).
  destruct (append_results_columns (append_results d a) a)
    as (D1 & D2 & D3 & D4 & D5 & D6 & D7 & D8 & D9).
  apply DataFrame_eq; [reflexivity|].
  apply map_eq. intros c.
  destruct (decide (c = "filt")) as [->|N1]; [congruence|].
  destruct (decide (c = "h_band")) as [->|N2]; [congruence|].
  destruct (decide (c = "l_band")) as [->|N3]; [congruence|].
  destruct (decide (c = "fdir")) as [->|N4]; [congruence|].
  destruct (decide (c = "upward")) as [->|N5]; [congruence|].
  destruct (decide (c = "downward")) as [->|N6]; [congruence|].
  destruct (decide (c = "filt_color")) as [->|N7]; [congruence|].
  destruct (decide (c = "bar_color")) as [->|N8]; [congruence|].
  destruct (decide (c = "external_trend_output")) as [->|N9]; [congruence|].
  apply append_results_other; assumption.
Qed.

Lemma append_results_reads d a i : reads_agree d (append_results d a) i.
Proof.
  intros c j Hc _. unfold iloc.
  rewrite append_results_other;
    [reflexivity | destruct Hc as [->|[->| ->]]; discriminate ..].
Qed.

(** X7. Running twice is running once: a second [run] on the frame the
    first one returned (the result columns now present) returns the same
    arrays and leaves the frame as it is. *)
Theorem run_twice self a df :
  run np_mean self = Ok (a, df) ->
  run np_mean (with_data self df) = Ok (a, df).
Proof.
  intros H. pose proof H as H'. apply run_Ok in H' as [[v Hst] ->].
  pose proof (state_after_len _ _ _ _ _ Hst) as [Hlen _].
  unfold run.
  change (data (with_data self (append_results (data self) a)))
    with (append_results (data self) a).
  change (df_len (append_results (data self) a)) with (df_len (data self)).
  rewrite (state_after_take self (append_results (data self) a)
             (df_len (data self)) (df_len (data self)));
    [| intros i _; apply append_results_reads | reflexivity | lia | lia].
  rewrite Hst. cbn.
  rewrite (take_arrays_all _ _ Hlen), append_results_idem. reflexivity.
Qed.

(** ** The anchor over a run *)

Lemma next_rfilt_seed ft h l r p :
  is_nan p = true -> next_rfilt ft h l r p = ((h + l) / 2)%float.
Proof. intros H. unfold next_rfilt. rewrite H. reflexivity. Qed.

Lemma next_rfilt_ratchet h l r p :
  is_nan p = false ->
  next_rfilt "Type 1" h l r p
  = (if (p <? h - r)%float then (h - r)%float
     else if (l + r <? p)%float then (l + r)%float else p).
Proof. intros H. unfold next_rfilt. rewrite H. reflexivity. Qed.

Lemma next_rfilt_other ft h l r p :
  ft <> "Type 1" -> ft <> "Type 2" -> is_nan p = false ->
  next_rfilt ft h l r p = p.
Proof.
  intros H1 H2 Hp. unfold next_rfilt. rewrite Hp.
  apply String.eqb_neq in H1, H2. rewrite H1, H2. reflexivity.
Qed.

(** Outside 'Type 2' a defined anchor stays defined. *)
Lemma next_rfilt_defined ft h l r p :
  ft <> "Type 2" -> is_nan p = false -> is_nan (next_rfilt ft h l r p) = false.
Proof.
  intros H2 Hp.
  destruct (String.eqb_spec ft "Type 1") as [->|H1].
  - rewrite next_rfilt_ratchet by assumption.
    destruct (p <? h - r)%float eqn:C1;
      [apply (FloatFacts.ltb_not_nan _ _ C1)|].
    destruct (l + r <? p)%float eqn:C2;
      [apply (FloatFacts.ltb_not_nan _ _ C2) | assumption].
  - rewrite next_rfilt_other; assumption.
Qed.

(** X9. Outside 'Type 2' mode, once the anchor is a number it stays one:
    whatever NaN or infinite fields the later bars hold, the anchor after
    every later bar is not NaN. *)
Theorem anchor_stays_defined self k m v a v' a' :
  f_type self <> "Type 2" ->
  state_after np_mean self k = Ok (v, a) -> is_nan (rfilt_prev v) = false ->
  (k <= m)%nat -> state_after np_mean self m = Ok (v', a') ->
  is_nan (rfilt_prev v') = false.
Proof.
  intros Ht Hk Hp Hkm. revert v' a'.
  induction m as [|m IH]; intros v' a' Hm.
  - assert (k = 0%nat) as -> by lia. congruence.
  - destruct (decide (k = S m)) as [->|Hne]; [congruence|].
    destruct (state_after_step _ _ _ _ _ Hm) as (v0 & a0 & H0 & _).
    destruct (bar_step _ _ _ _ _ _ _ H0 Hm) as (h & l & r & f & _ & _ & -> & _).
    apply next_rfilt_defined; [assumption|].
    eapply IH; [lia | eassumption].
Qed.

(** X10. With an [f_type] that is neither 'Type 1' nor 'Type 2' no breakout
    rule applies: the anchor keeps the value it was seeded with on the first
    bar (when that is a number) for the whole run. *)
Theorem unknown_filter_type_freezes_anchor self k v1 a1 v a :
  f_type self <> "Type 1" -> f_type self <> "Type 2" ->
  state_after np_mean self 1 = Ok (v1, a1) -> is_nan (rfilt_prev v1) = false ->
  state_after np_mean self (S k) = Ok (v, a) ->
  rfilt_prev v = rfilt_prev v1.
Proof.
  intros H1 H2 Hs Hp. revert v a.
  induction k as [|k IH]; intros v a Hk; [congruence|].
  destruct (state_after_step _ _ _ _ _ Hk) as (v0 & a0 & H0 & _).
  destruct (bar_step _ _ _ _ _ _ _ H0 Hk) as (h & l & r & f & _ & _ & -> & _).
  rewrite <- (IH _ _ H0) in Hp |- *.
  apply next_rfilt_other; assumption.
Qed.

(** X12. Without averaging the emitted filter value is the anchor itself,
    the change window stays empty and the change counter stays 0. *)
Theorem no_averaging_emits_anchor self k v a :
  av_vals self = false ->
  state_after np_mean self (S k) = Ok (v, a) ->
  filt a !! k = Some (rfilt_prev v) /\
  filt_change_values v = [] /\ filt_change_count v = 0%Z.
Proof.
  intros Hav. revert v a.
  assert (I : forall j v a, state_after np_mean self j = Ok (v, a) ->
            filt_change_values v = [] /\ filt_change_count v = 0%Z).
  { induction j as [|j IH]; intros v a H.
    - injection H as <- <-. auto.
    - destruct (state_after_step _ _ _ _ _ H) as (v0 & a0 & H0 & _).
      destruct (bar_step _ _ _ _ _ _ _ H0 H)
        as (h & l & r & f & _ & _ & _ & _ & _ & _ & _ & Hc).
      rewrite Hav in Hc. destruct Hc as (-> & -> & _). eauto. }
  intros v a H. split; [|eapply I; eassumption].
  destruct (state_after_step _ _ _ _ _ H) as (v0 & a0 & H0 & _).
  destruct (bar_step _ _ _ _ _ _ _ H0 H)
    as (h & l & r & f & _ & _ & _ & Ef & _ & _ & _ & Hc).
  rewrite Hav in Hc. destruct Hc as (_ & _ & ->). assumption.
Qed.

(** X8. In 'Type 1' mode without averaging, the direction of a bar tells
    which way the anchor broke out.  With [p] the previous filter value (a
    number): if [h - r > p] the filter moves to [h - r] and the direction is
    1; else if [l + r < p] it moves to [l + r] and the direction is -1; else
    the filter and the direction are those of the previous bar.  When the
    previous filter value is NaN the filter is seeded anew with the bar's
    movement midpoint and the direction is carried over. *)
Theorem ratchet_direction self a df i :
  run np_mean self = Ok (a, df) ->
  f_type self = "Type 1" -> av_vals self = false ->
  (S i < df_len (data self))%nat ->
  exists p h l r d,
    filt a !! i = Some p /\ movement self (S i) = Ok (h, l) /\
    effective_range np_mean self (S i) = Ok r /\ fdir a !! S i = Some d /\
    (is_nan p = false ->
     ((p <? h - r)%float = true ->
      d = 1%float /\ filt a !! S i = Some (h - r)%float) /\
     ((p <? h - r)%float = false -> (l + r <? p)%float = true ->
      d = (-1)%float /\ filt a !! S i = Some (l + r)%float) /\
     ((p <? h - r)%float = false -> (l + r <? p)%float = false ->
      fdir a !! i = Some d /\ filt a !! S i = Some p)) /\
    (is_nan p = true ->
     fdir a !! i = Some d /\ filt a !! S i = Some ((h + l) / 2)%float).
Proof.
  intros H Ht Hav Hi.
  destruct (run_bar _ _ _ _ H Hi) as (v1 & a1 & v2 & a2 & H1 & H2 & R2).
  destruct (run_bar _ _ _ i H) as (v0 & a0 & v1' & a1' & H0 & H1' & R1); [lia|].
  assert (v1' = v1 /\ a1' = a1) as [-> ->] by (split; congruence).
  destruct (bar_step _ _ _ _ _ _ _ H0 H1)
    as (h0 & l0 & r0 & f0 & _ & _ & _ & Ef0 & _ & _ & _ & Hc0).
  rewrite Hav in Hc0. destruct Hc0 as (_ & _ & ->).
  destruct (bar_step _ _ _ _ _ _ _ H1 H2)
    as (h & l & r & f & Hm & Hr & Ea & Ef & _ & _ & _ & Hc).
  rewrite Hav in Hc. destruct Hc as (_ & _ & ->).
  destruct (bar_direction _ _ _ _ _ _ _ H1 H2) as (d & Hd & Ed & _).
  assert (Rp : arrays_at i a2 = arrays_at i a1).
  { eapply state_after_stable; [exact H1 | exact H2 | lia]. }
  unfold arrays_at in R1, R2, Rp.
  injection R1 as R11 _ _ R14 _ _ _ _ _.
  injection R2 as R21 _ _ R24 _ _ _ _ _.
  injection Rp as Rp1 _ _ _ _ _ _ _ _.
  exists (rfilt_prev v1), h, l, r, d.
  rewrite R11, R21, R24, R14. repeat (split; [assumption|]).
  apply direction_inv in Hd.
  destruct Hd as (fi & fp & Efi & Efp & Hcase).
  rewrite Rp1, Ef0 in Efp. injection Efp as <-.
  split; [|intros Hp].
  2:{ rewrite Ef. rewrite Ea, next_rfilt_seed by assumption.
      split; [|reflexivity].
      destruct Hcase as [[C _]|[(_ & C & _)|(_ & _ & Hprev)]];
        [| |assumption];
        apply FloatFacts.ltb_not_nan in C; destruct C; congruence. }
  intros Hp. rewrite Ef. rewrite Ea, Ht, next_rfilt_ratchet by assumption.
  rewrite Ef, Ea, Ht, next_rfilt_ratchet in Efi by assumption.
  injection Efi as <-.
  destruct (rfilt_prev v1 <? h - r)%float eqn:C1.
  - split; [|split; intros; discriminate]. intros _. split; [|reflexivity].
    destruct Hcase as [[_ ->]|[(C & _)|(C & _)]]; [reflexivity | congruence ..].
  - destruct (l + r <? rfilt_prev v1)%float eqn:C2.
    + split; [intros; discriminate|]. split; [|intros; discriminate].
      intros _ _. split; [|reflexivity].
      pose proof (FloatOrder.ltb_asym _ _ C2) as C3.
      destruct Hcase as [[C _]|[(_ & _ & ->)|(_ & C & _)]];
        [congruence | reflexivity | congruence].
    + split; [intros; discriminate|]. split; [intros; discriminate|].
      intros _ _. split; [|reflexivity].
      pose proof (FloatFacts.ltb_irrefl (rfilt_prev v1)) as C3.
      destruct Hcase as [[C _]|[(_ & C & _)|(_ & _ & Hprev)]];
        [congruence | congruence | assumption].
Qed.

(** ** Other configurations *)

Lemma loop_body_unknown_source self i st :
  mov_src self <> "Wicks" ->
  loop_body np_mean self i st
  = loop_body np_mean (with_mov_src self "Close") i st.
Proof.
  intros H. destruct st as [v a]. unfold loop_body.
  assert (E : movement self i = movement (with_mov_src self "Close") i).
  { unfold movement. simpl. apply String.eqb_neq in H. rewrite H. reflexivity. }
  rewrite E. reflexivity.
Qed.

(** X11. Any [mov_src] other than 'Wicks' is treated as 'Close': the run is
    the run of the same object with [mov_src = 'Close'], and on every bar
    both movement extremes are the bar's close. *)
Theorem unknown_source_runs_as_close self :
  mov_src self <> "Wicks" ->
  run np_mean self = run np_mean (with_mov_src self "Close") /\
  forall i h l, movement self i = Ok (h, l) ->
    h = l /\ float_cell (data self) "close" i = Some h.
Proof.
  intros H. split.
  - unfold run, state_after.
    change (data (with_mov_src self "Close")) with (data self).
    rewrite (for_each_ext (loop_body np_mean self)
               (loop_body np_mean (with_mov_src self "Close"))); [reflexivity|].
    intros i st. apply loop_body_unknown_source. assumption.
  - intros i h l. unfold movement. apply String.eqb_neq in H. rewrite H.
    intros Hm. ok_inv Hm Ec. injection Hm as <- <-.
    split; [reflexivity|]. apply iloc_float_cell. assumption.
Qed.

(** ** The windows in detail *)

Lemma push_window_length_eq n lst x :
  (0 <= n)%Z -> (Z.of_nat (length lst) <= n)%Z ->
  Z.of_nat (length (push_window n lst x)) = Z.min (Z.of_nat (length lst) + 1) n.
Proof.
  intros Hn Hl. unfold push_window. rewrite length_app. simpl.
  destruct (Z.ltb_spec n (Z.of_nat (length lst + 1))) as [H|H].
  - destruct lst as [|y lst]; simpl in *; [lia|].
    rewrite length_app. simpl. lia.
  - rewrite length_app. simpl. lia.
Qed.

(** X13. The change counter counts at most one change per bar, and the
    change window holds the last [min(count, av_samples)] changes. *)
Theorem change_window_size self k v a :
  (0 <= av_samples self)%Z ->
  state_after np_mean self k = Ok (v, a) ->
  (0 <= filt_change_count v <= Z.of_nat k)%Z /\
  Z.of_nat (length (filt_change_values v))
  = Z.min (filt_change_count v) (av_samples self).
Proof.
  intros Hn. revert v a. induction k as [|k IH]; intros v a H.
  - injection H as <- <-. simpl. lia.
  - destruct (state_after_step _ _ _ _ _ H) as (v0 & a0 & H0 & _).
    destruct (IH _ _ H0) as [I1 I2].
    destruct (bar_step _ _ _ _ _ _ _ H0 H)
      as (h & l & r & f & _ & _ & _ & _ & _ & _ & _ & Hc).
    destruct (av_vals self).
    + destruct Hc as (-> & -> & _).
      destruct (negb _); [|lia].
      rewrite push_window_length_eq by lia. lia.
    + destruct Hc as (-> & -> & _). lia.
Qed.

Lemma midpoint_movement self i h l :
  movement self i = Ok (h, l) -> midpoint self i = Ok ((h + l) / 2)%float.
Proof. unfold midpoint. intros ->. reflexivity. Qed.

(** X14. The standard-deviation window after [k] bars holds the movement
    midpoints of the last [min(k, rng_per)] bars, oldest first. *)
Theorem sd_window_holds_last_midpoints self k v a :
  (0 <= rng_per self)%Z ->
  state_after np_mean self k = Ok (v, a) ->
  Z.of_nat (length (sd_list v)) = Z.min (Z.of_nat k) (rng_per self) /\
  forall j x, sd_list v !! j = Some x ->
    midpoint self (k - length (sd_list v) + j) = Ok x.
Proof.
  intros Hn. revert v a. induction k as [|k IH]; intros v a H.
  - injection H as <- <-. simpl. split; [lia|]. intros j x Hj. discriminate.
  - destruct (state_after_step _ _ _ _ _ H) as (v0 & a0 & H0 & _).
    destruct (IH _ _ H0) as [I1 I2].
    destruct (bar_step _ _ _ _ _ _ _ H0 H)
      as (h & l & r & f & Hm & _ & _ & _ & _ & _ & Esd & _).
    apply midpoint_movement in Hm. rewrite Esd.
    split; [rewrite push_window_length_eq by lia; lia|].
    intros j x. unfold push_window. rewrite length_app. simpl.
    destruct (Z.ltb_spec (rng_per self) (Z.of_nat (length (sd_list v0) + 1)))
      as [C|C].
    + rewrite lookup_tail. intros Hj.
      assert (L : length (tail (sd_list v0 ++ [((h + l) / 2)%float]))
                  = length (sd_list v0)).
      { destruct (sd_list v0); simpl; [reflexivity|].
        rewrite length_app. simpl. lia. }
      rewrite L.
      destruct (decide (S j < length (sd_list v0))%nat) as [Hlt|Hge].
      * rewrite lookup_app_l in Hj by assumption.
        apply I2 in Hj.
        replace (S k - length (sd_list v0) + j)%nat
          with (k - length (sd_list v0) + S j)%nat by lia. assumption.
      * apply lookup_lt_Some in Hj as Hb. rewrite length_app in Hb. simpl in Hb.
        assert (S j = length (sd_list v0)) as Ej by lia.
        rewrite lookup_app_r, Ej, Nat.sub_diag in Hj by lia.
        injection Hj as <-.
        replace (S k - length (sd_list v0) + j)%nat with k by lia. assumption.
    + rewrite length_app. simpl. intros Hj.
      destruct (decide (j < length (sd_list v0))%nat) as [Hlt|Hge].
      * rewrite lookup_app_l in Hj by assumption.
        apply I2 in Hj.
        replace (S k - (length (sd_list v0) + 1) + j)%nat
          with (k - length (sd_list v0) + j)%nat by lia. assumption.
      * apply lookup_lt_Some in Hj as Hb. rewrite length_app in Hb. simpl in Hb.
        assert (j = length (sd_list v0)) as Ej by lia.
        rewrite lookup_app_r, Ej, Nat.sub_diag in Hj by lia.
        injection Hj as <-.
        replace (S k - (length (sd_list v0) + 1) + j)%nat with k by lia.
        assumption.
Qed.

Lemma rng_size_inv_stats self x i pac patr psd acl sdl rs pac' patr' psd' acl' sdl' :
  rng_size np_mean self x i pac patr psd acl sdl
  = Ok (rs, pac', patr', psd', acl', sdl') ->
  sdl' = push_window (rng_per self) sdl x /\
  psd' = Stdev np_mean sdl' (Cond_SMA np_mean sdl').
Proof.
  unfold rng_size. intros H.
  ok_inv H Etr. ok_inv H Eatr. ok_inv H Eac. ok_inv H Epac. ok_inv H Esel.
  injection H as <- <- <- <- <- <-. auto.
Qed.

Lemma push_window_no_room n lst x :
  (n <= 0)%Z -> lst = [] -> push_window n lst x = [].
Proof.
  intros Hn ->. unfold push_window. simpl.
  assert ((n <? Z.of_nat 1)%Z = true) as -> by (apply Z.ltb_lt; simpl; lia).
  reflexivity.
Qed.

(** X15. With [rng_per <= 0] the standard-deviation window is emptied on
    every bar, so after every bar it is empty and the standard deviation is
    NaN. *)
Theorem nonpositive_period_empties_sd_window self k v a :
  (rng_per self <= 0)%Z ->
  state_after np_mean self (S k) = Ok (v, a) ->
  sd_list v = [] /\ is_nan (prev_sd v) = true.
Proof.
  intros Hn.
  assert (I : forall j v a, state_after np_mean self j = Ok (v, a) -> sd_list v = []).
  { induction j as [|j IH]; intros w b H.
    - injection H as <- <-. reflexivity.
    - destruct (state_after_step _ _ _ _ _ H) as (v0 & a0 & H0 & Hb).
      destruct Hb as [h l rs hb lb f d fc bc _ Hsize _ _ _ _ _ _ _ _ _ _ _ _ _].
      apply rng_size_inv_stats in Hsize as [-> _].
      apply push_window_no_room; [assumption | eapply IH; eassumption]. }
  intros H. pose proof (I _ _ _ H) as E. split; [assumption|].
  destruct (state_after_step _ _ _ _ _ H) as (v0 & a0 & H0 & Hb).
  destruct Hb as [h l rs hb lb f d fc bc _ Hsize _ _ _ _ _ _ _ _ _ _ _ _ _].
  apply rng_size_inv_stats in Hsize as [_ ->]. rewrite E. reflexivity.
Qed.

(** X16. With averaging on but [av_samples <= 0] every pushed change is
    popped at once: the change window is empty after every bar and the
    emitted filter value is the raw anchor. *)
Theorem nonpositive_samples_disable_averaging self k v a :
  av_vals self = true -> (av_samples self <= 0)%Z ->
  state_after np_mean self (S k) = Ok (v, a) ->
  filt_change_values v = [] /\ filt a !! k = Some (rfilt_prev v).
Proof.
  intros Hav Hn.
  assert (I : forall j v a, state_after np_mean self j = Ok (v, a) ->
            filt_change_values v = []).
  { induction j as [|j IH]; intros w b H.
    - injection H as <- <-. reflexivity.
    - destruct (state_after_step _ _ _ _ _ H) as (v0 & a0 & H0 & _).
      destruct (bar_step _ _ _ _ _ _ _ H0 H)
        as (h & l & r & f & _ & _ & _ & _ & _ & _ & _ & Hc).
      rewrite Hav in Hc. destruct Hc as (-> & _ & _).
      pose proof (IH _ _ H0) as E.
      destruct (negb _); [apply push_window_no_room|]; assumption. }
  intros H. pose proof (I _ _ _ H) as E. split; [assumption|].
  destruct (state_after_step _ _ _ _ _ H) as (v0 & a0 & H0 & _).
  destruct (bar_step _ _ _ _ _ _ _ H0 H)
    as (h & l & r & f & _ & _ & _ & Ef & _ & _ & _ & Hc).
  rewrite Hav in Hc. destruct Hc as (_ & _ & ->).
  rewrite E in Ef. assumption.
Qed.

(** X17. The first bar seeds every running statistic: the ATR estimate is
    [high[0] - low[0]], the average change is 0, the anchor is the movement
    midpoint, and the smoothed range is the raw range size, so smoothing has
    no effect on the first bar's bands. *)
Theorem first_bar_seeds_statistics self v a :
  state_after np_mean self 1 = Ok (v, a) ->
  exists hi lo h l r,
    float_cell (data self) "high" 0 = Some hi /\
    float_cell (data self) "low" 0 = Some lo /\
    movement self 0 = Ok (h, l) /\
    prev_atr v = (hi - lo)%float /\ prev_ac v = 0%float /\
    rfilt_prev v = ((h + l) / 2)%float /\
    select_rng_size self 0 0%float (hi - lo)%float (prev_sd v) = Ok r /\
    prev_rng_smooth v = r /\
    effective_range np_mean self 0 = Ok r.
Proof.
  intros H.
  destruct (state_after_step _ _ _ _ _ H) as (v0 & a0 & H0 & Hb).
  rewrite state_after_0 in H0. injection H0 as <- <-.
  destruct (bar_step _ _ _ _ _ _ _ (state_after_0 np_mean self) H)
    as (h' & l' & r & f' & Hm' & Hr & Ea & _).
  destruct Hb as [h l rs hb lb f d fc bc Hm Hsize Hfilt _ _ _ _ _ _ _ _ _ _ _ _].
  assert (h' = h /\ l' = l) as [-> ->] by (split; congruence).
  simpl in Hsize, Hfilt, Ea.
  pose proof Hsize as Hs. unfold rng_size in Hs.
  apply bind_Ok in Hs as (tr & Etr & Hs).
  apply bind_Ok in Etr as (hi & Ehi & Etr).
  apply bind_Ok in Etr as (lo & Elo & Etr). injection Etr as <-.
  apply bind_Ok in Hs as (patr & Eatr & Hs).
  apply Cond_EMA_inv in Eatr as [_ ->].
  apply bind_Ok in Hs as (ac & Eac & Hs). injection Eac as <-.
  apply bind_Ok in Hs as (pac & Epac & Hs).
  apply Cond_EMA_inv in Epac as [_ ->].
  apply bind_Ok in Hs as (rs' & Esel & Hs).
  injection Hs as -> Epac' Epatr' Epsd' _ _.
  change (is_nan nan) with true in *. cbv iota in *.
  apply rng_filt_inv in Hfilt as (Eema & _).
  pose proof Eema as Eps. apply Cond_EMA_inv in Eps as [_ Eps].
  change (is_nan nan) with true in Eps. cbv iota in Eps.
  apply iloc_float_cell in Ehi, Elo.
  exists hi, lo, h, l, rs.
  split; [exact Ehi|]. split; [exact Elo|]. split; [exact Hm|].
  split; [congruence|]. split; [congruence|]. split; [exact Ea|].
  split; [rewrite <- Epsd'; exact Esel|]. split; [exact Eps|].
  unfold effective_range. rewrite state_after_0, bind_Ok_l. cbv beta iota.
  rewrite Hm, bind_Ok_l. cbv beta iota zeta.
  change (prev_ac init_vars) with nan. change (prev_atr init_vars) with nan.
  change (prev_sd init_vars) with nan. change (ac_list init_vars) with (@nil float).
  change (sd_list init_vars) with (@nil float).
  rewrite Hsize, bind_Ok_l. cbv beta iota.
  change (prev_rng_smooth init_vars) with nan.
  rewrite Eema, bind_Ok_l. rewrite Eps.
  destruct (smooth_range self); reflexivity.
Qed.

End More.

(** ** The further properties on concrete runs *)

(** The arrays of the six-bar scenario. *)
Example trend_scenario :
  run mean_seq rf_trend
  = Ok (trend_arrays, append_results (data rf_trend) trend_arrays).
Proof. vm_compute. reflexivity. Qed.

(** X1 on the gap scenario. *)
Lemma run_raises_only_on_period_minus_one_witness :
  price_frame (data rf_gap) = true /\
  (is_ok (run mean_seq rf_gap) = true <->
   df_len (data rf_gap) = 0%nat \/
   (rng_per rf_gap <> (-1)%Z /\ smooth_per rf_gap <> (-1)%Z)) /\
  (forall e, run mean_seq rf_gap = Raise e -> e = ZeroDivisionError).
Proof.
  split; [concrete|].
  apply (run_raises_only_on_period_minus_one mean_seq rf_gap). concrete.
Defined.

(** X2 on a frame without a [high] column. *)
Lemma missing_column_raises_KeyError_witness :
  (0 < df_len (data rf_no_high))%nat /\
  (df_columns (data rf_no_high) !! "high" = None ->
   mov_src rf_no_high = "Wicks" \/ float_column (data rf_no_high) "close" = true ->
   run mean_seq rf_no_high = Raise (KeyError "high")) /\
  (df_columns (data rf_no_high) !! "close" = None ->
   mov_src rf_no_high <> "Wicks" ->
   run mean_seq rf_no_high = Raise (KeyError "close")).
Proof.
  split; [concrete|].
  apply (missing_column_raises_KeyError mean_seq rf_no_high). concrete.
Defined.

(** The run on the frame without [high] does raise. *)
Example no_high_raises : run mean_seq rf_no_high = Raise (KeyError "high").
Proof. vm_compute. reflexivity. Qed.

(** X3 on the six-bar scenario. *)
Lemma run_assigns_result_columns_witness :
  exists a df,
    run mean_seq rf_trend = Ok (a, df) /\
    get_data (with_data rf_trend (data_after mean_seq rf_trend)) = df /\
    df_index df = df_index (data rf_trend) /\
    arrays_len (df_len df) a /\
    df_columns df !! "filt" = Some (FloatCol (filt a)) /\
    df_columns df !! "h_band" = Some (FloatCol (h_band a)) /\
    df_columns df !! "l_band" = Some (FloatCol (l_band a)) /\
    df_columns df !! "fdir" = Some (FloatCol (fdir a)) /\
    df_columns df !! "upward" = Some (FloatCol (upward a)) /\
    df_columns df !! "downward" = Some (FloatCol (downward a)) /\
    df_columns df !! "filt_color" = Some (ObjCol (filt_color a)) /\
    df_columns df !! "bar_color" = Some (ObjCol (bar_color a)) /\
    df_columns df !! "external_trend_output"
    = Some (FloatCol (external_trend_output a)) /\
    forall c, c ∉ result_columns ->
      df_columns df !! c = df_columns (data rf_trend) !! c.
Proof.
  exists trend_arrays, (append_results (data rf_trend) trend_arrays).
  assert (H : run mean_seq rf_trend
              = Ok (trend_arrays, append_results (data rf_trend) trend_arrays))
    by concrete.
  split; [exact H|].
  apply (run_assigns_result_columns mean_seq rf_trend _ _ H).
Defined.

(** X4 on the six-bar scenario. *)
Lemma external_trend_output_is_fdir_witness :
  exists a df,
    run mean_seq rf_trend = Ok (a, df) /\
    external_trend_output a = fdir a /\
    df_columns df !! "external_trend_output" = df_columns df !! "fdir".
Proof.
  exists trend_arrays, (append_results (data rf_trend) trend_arrays).
  assert (H : run mean_seq rf_trend
              = Ok (trend_arrays, append_results (data rf_trend) trend_arrays))
    by concrete.
  split; [exact H|].
  apply (external_trend_output_is_fdir mean_seq rf_trend _ _ H).
Defined.

(** X5 on the six-bar scenario, bar 4 (direction 1, dark green bar). *)
Lemma colors_follow_direction_witness :
  exists a df d,
    (run mean_seq rf_trend = Ok (a, df) /\ fdir a !! 4%nat = Some d) /\
    exists fc bc,
      filt_color a !! 4%nat = Some fc /\ bar_color a !! 4%nat = Some bc /\
      (d = 0%float -> fc = "gray" /\ bc = "gray") /\
      (d = 1%float ->
         fc = "#05ff9b" /\
         exists c f,
           float_cell (data rf_trend) "close" 4 = Some c /\
           filt a !! 4%nat = Some f /\
           ((f <? c)%float = false -> bc = "gray") /\
           ((f <? c)%float = true ->
            exists j cp, 4%nat = S j /\
              float_cell (data rf_trend) "close" j = Some cp /\
              bc = if (cp <? c)%float then "#05ff9b" else "#00b36b")) /\
      (d = (-1)%float ->
         fc = "#ff0583" /\
         exists c f,
           float_cell (data rf_trend) "close" 4 = Some c /\
           filt a !! 4%nat = Some f /\
           ((c <? f)%float = false -> bc = "gray") /\
           ((c <? f)%float = true ->
            exists j cp, 4%nat = S j /\
              float_cell (data rf_trend) "close" j = Some cp /\
              bc = if (c <? cp)%float then "#ff0583" else "#b8005d")).
Proof.
  exists trend_arrays, (append_results (data rf_trend) trend_arrays), 1%float.
  assert (H : run mean_seq rf_trend
              = Ok (trend_arrays, append_results (data rf_trend) trend_arrays))
    by concrete.
  assert (Hd : fdir trend_arrays !! 4%nat = Some 1%float) by reflexivity.
  split; [split; assumption|].
  apply (colors_follow_direction mean_seq rf_trend _ _ 4 1%float H Hd).
Defined.

(** X6 on the six-bar scenario cut to its first four bars. *)
Lemma run_on_first_rows_witness :
  exists a df,
    (run mean_seq rf_trend = Ok (a, df) /\ (4 <= df_len (data rf_trend))%nat) /\
    run mean_seq (with_data rf_trend (df_head 4 (data rf_trend)))
    = Ok (take_arrays 4 a,
          append_results (df_head 4 (data rf_trend)) (take_arrays 4 a)).
Proof.
  exists trend_arrays, (append_results (data rf_trend) trend_arrays).
  assert (H : run mean_seq rf_trend
              = Ok (trend_arrays, append_results (data rf_trend) trend_arrays))
    by concrete.
  assert (Hk : (4 <= df_len (data rf_trend))%nat) by concrete.
  split; [split; assumption|].
  apply (run_on_first_rows mean_seq rf_trend _ _ 4 H Hk).
Defined.

(** X7 on the six-bar scenario. *)
Lemma run_twice_witness :
  exists a df,
    run mean_seq rf_trend = Ok (a, df) /\
    run mean_seq (with_data rf_trend df) = Ok (a, df).
Proof.
  exists trend_arrays, (append_results (data rf_trend) trend_arrays).
  assert (H : run mean_seq rf_trend
              = Ok (trend_arrays, append_results (data rf_trend) trend_arrays))
    by concrete.
  split; [exact H|].
  apply (run_twice mean_seq rf_trend _ _ H).
Defined.

(** X8 on the six-bar scenario: at bar 1 the previous filter value is 100
    (a number), [h = 104] and [r = 1], so [h - r > p] holds, the filter moves
    to 103 and the direction is 1. *)
Lemma ratchet_direction_witness :
  exists a df,
    (run mean_seq rf_trend = Ok (a, df) /\
     f_type rf_trend = "Type 1" /\ av_vals rf_trend = false /\
     (1 < df_len (data rf_trend))%nat) /\
    exists p h l r d,
      filt a !! 0%nat = Some p /\ movement rf_trend 1 = Ok (h, l) /\
      effective_range mean_seq rf_trend 1 = Ok r /\ fdir a !! 1%nat = Some d /\
      p = 100%float /\ is_nan p = false /\
      h = 104%float /\ l = 102%float /\ r = 1%float /\
      (p <? h - r)%float = true /\
      d = 1%float /\ filt a !! 1%nat = Some (h - r)%float /\
      filt a !! 1%nat = Some 103%float.
Proof.
  exists trend_arrays, (append_results (data rf_trend) trend_arrays).
  assert (H : run mean_seq rf_trend
              = Ok (trend_arrays, append_results (data rf_trend) trend_arrays))
    by concrete.
  assert (H1 : f_type rf_trend = "Type 1") by concrete.
  assert (H2 : av_vals rf_trend = false) by concrete.
  assert (H3 : (1 < df_len (data rf_trend))%nat) by concrete.
  split; [auto|].
  destruct (ratchet_direction mean_seq rf_trend _ _ 0 H H1 H2 H3)
    as (p & h & l & r & d & Ep & Hm & Hr & Ed & Hstep & _).
  exists p, h, l, r, d. repeat (split; [assumption|]).
  vm_compute in Ep. injection Ep as <-.
  vm_compute in Hm. injection Hm as <- <-.
  vm_compute in Hr. injection Hr as <-.
  destruct (Hstep eq_refl) as (Hup & _ & _).
  destruct (Hup eq_refl) as [Hd Hf].
  repeat (split; [reflexivity|]).
  split; [exact Hd|]. split; [exact Hf|]. reflexivity.
Defined.

(** X9 on the frame whose second bar is NaN and infinite. *)
Lemma anchor_stays_defined_witness :
  exists v a v' a',
    (f_type rf_nan <> "Type 2" /\
     state_after mean_seq rf_nan 1 = Ok (v, a) /\
     is_nan (rfilt_prev v) = false /\ (1 <= 2)%nat /\
     state_after mean_seq rf_nan 2 = Ok (v', a')) /\
    is_nan (rfilt_prev v') = false.
Proof.
  eexists _, _, _, _. split.
  - split; [discriminate|]. split; [vm_compute; reflexivity|].
    split; [reflexivity|]. split; [lia|]. vm_compute; reflexivity.
  - eapply (anchor_stays_defined mean_seq rf_nan 1 2 _ _ _ _);
      [discriminate | vm_compute; reflexivity | reflexivity | lia
      | vm_compute; reflexivity].
Defined.

(** X10 on the gap scenario with [f_type = 'Type 3']: the gap does not move
    the anchor. *)
Lemma unknown_filter_type_freezes_anchor_witness :
  exists v1 a1 v a,
    (f_type rf_type3 <> "Type 1" /\ f_type rf_type3 <> "Type 2" /\
     state_after mean_seq rf_type3 1 = Ok (v1, a1) /\
     is_nan (rfilt_prev v1) = false /\
     state_after mean_seq rf_type3 2 = Ok (v, a)) /\
    rfilt_prev v = rfilt_prev v1.
Proof.
  eexists _, _, _, _. split.
  - split; [discriminate|]. split; [discriminate|].
    split; [vm_compute; reflexivity|]. split; [reflexivity|].
    vm_compute; reflexivity.
  - eapply (unknown_filter_type_freezes_anchor mean_seq rf_type3 1 _ _ _ _);
      [discriminate | discriminate | vm_compute; reflexivity | reflexivity
      | vm_compute; reflexivity].
Defined.

(** X11 on the gap scenario with [mov_src = 'Open']. *)
Lemma unknown_source_runs_as_close_witness :
  mov_src rf_open <> "Wicks" /\
  run mean_seq rf_open = run mean_seq (with_mov_src rf_open "Close") /\
  forall i h l, movement rf_open i = Ok (h, l) ->
    h = l /\ float_cell (data rf_open) "close" i = Some h.
Proof.
  assert (H : mov_src rf_open <> "Wicks") by discriminate.
  split; [exact H|].
  apply (unknown_source_runs_as_close mean_seq rf_open H).
Defined.

(** X12 on the gap scenario, after the second bar. *)
Lemma no_averaging_emits_anchor_witness :
  exists v a,
    (av_vals rf_gap = false /\ state_after mean_seq rf_gap 2 = Ok (v, a)) /\
    filt a !! 1%nat = Some (rfilt_prev v) /\
    filt_change_values v = [] /\ filt_change_count v = 0%Z.
Proof.
  eexists _, _. split.
  - split; [reflexivity | vm_compute; reflexivity].
  - eapply (no_averaging_emits_anchor mean_seq rf_gap 1 _ _);
      [reflexivity | vm_compute; reflexivity].
Defined.

(** X13 on the averaging scenario: four changes, a window of two. *)
Lemma change_window_size_witness :
  exists v a,
    ((0 <= av_samples rf_avg)%Z /\ state_after mean_seq rf_avg 4 = Ok (v, a)) /\
    (0 <= filt_change_count v <= Z.of_nat 4)%Z /\
    Z.of_nat (length (filt_change_values v))
    = Z.min (filt_change_count v) (av_samples rf_avg).
Proof.
  eexists _, _. split.
  - split; [(vm_compute; discriminate) | vm_compute; reflexivity].
  - eapply (change_window_size mean_seq rf_avg 4 _ _);
      [(vm_compute; discriminate) | vm_compute; reflexivity].
Defined.

(** X14 on the averaging scenario ([rng_per = 2]) after three bars. *)
Lemma sd_window_holds_last_midpoints_witness :
  exists v a,
    ((0 <= rng_per rf_avg)%Z /\ state_after mean_seq rf_avg 3 = Ok (v, a)) /\
    Z.of_nat (length (sd_list v)) = Z.min (Z.of_nat 3) (rng_per rf_avg) /\
    forall j x, sd_list v !! j = Some x ->
      midpoint rf_avg (3 - length (sd_list v) + j) = Ok x.
Proof.
  eexists _, _. split.
  - split; [(vm_compute; discriminate) | vm_compute; reflexivity].
  - eapply (sd_window_holds_last_midpoints mean_seq rf_avg 3 _ _);
      [(vm_compute; discriminate) | vm_compute; reflexivity].
Defined.

(** X15 on the gap scenario with [rng_per = 0]. *)
Lemma nonpositive_period_empties_sd_window_witness :
  exists v a,
    ((rng_per rf_period0 <= 0)%Z /\
     state_after mean_seq rf_period0 2 = Ok (v, a)) /\
    sd_list v = [] /\ is_nan (prev_sd v) = true.
Proof.
  eexists _, _. split.
  - split; [(vm_compute; discriminate) | vm_compute; reflexivity].
  - eapply (nonpositive_period_empties_sd_window mean_seq rf_period0 1 _ _);
      [(vm_compute; discriminate) | vm_compute; reflexivity].
Defined.

(** With [rng_per = 0] and the 'Standard Deviation' scale the range, and so
    the bands, are NaN, while the filter itself is seeded and then kept. *)
Example period0_scenario :
  option_map (fun a => (filt a, h_band a, l_band a))
    (result_arrays (run mean_seq rf_period0))
  = Some ([100; 100]%float, [nan; nan]%float, [nan; nan]%float).
Proof. vm_compute. reflexivity. Qed.

(** X16 on the rising scenario with averaging over zero samples. *)
Lemma nonpositive_samples_disable_averaging_witness :
  exists v a,
    (av_vals rf_samples0 = true /\ (av_samples rf_samples0 <= 0)%Z /\
     state_after mean_seq rf_samples0 3 = Ok (v, a)) /\
    filt_change_values v = [] /\ filt a !! 2%nat = Some (rfilt_prev v).
Proof.
  eexists _, _. split.
  - split; [reflexivity|]. split; [(vm_compute; discriminate) | vm_compute; reflexivity].
  - eapply (nonpositive_samples_disable_averaging mean_seq rf_samples0 2 _ _);
      [reflexivity | (vm_compute; discriminate) | vm_compute; reflexivity].
Defined.

(** X17 on the gap scenario. *)
Lemma first_bar_seeds_statistics_witness :
  exists v a,
    state_after mean_seq rf_gap 1 = Ok (v, a) /\
    exists hi lo h l r,
      float_cell (data rf_gap) "high" 0 = Some hi /\
      float_cell (data rf_gap) "low" 0 = Some lo /\
      movement rf_gap 0 = Ok (h, l) /\
      prev_atr v = (hi - lo)%float /\ prev_ac v = 0%float /\
      rfilt_prev v = ((h + l) / 2)%float /\
      select_rng_size rf_gap 0 0%float (hi - lo)%float (prev_sd v) = Ok r /\
      prev_rng_smooth v = r /\
      effective_range mean_seq rf_gap 0 = Ok r.
Proof.
  eexists _, _. split.
  - vm_compute; reflexivity.
  - eapply (first_bar_seeds_statistics mean_seq rf_gap _ _).
    vm_compute; reflexivity.
Defined.
